(** * Stock-Market-Ticker: a shallow embedding of the scoring engine, the
    forecaster, the scan orchestrator and the portfolio diff tracker
    (src/stock_ticker/src/{analysis,models,strategy,data_ingestion,medium_term_strategy,
    portfolio_manager}.py). *)

From Stdlib Require Import QArith Qround Qabs ZArith Reals Lra Lia Psatz Permutation.
From stdpp Require Import base gmap strings list.

(* ------------------------------------------------------------------ *)
(** ** Python values, exceptions and dictionaries *)

(** The values a fundamentals snapshot (a yfinance [info] dict) holds: Python
    floats are modelled exactly as rationals. *)
Inductive pyval :=
  | PNone
  | PNum (q : Q)
  | PStr (s : string).

(** The exceptions the embedded code raises. *)
Inductive exn :=
  | TypeError
  | AttributeError
  | IndexError
  | ValueError.

(** A computation that returns a value or raises. *)
Inductive result (A : Type) :=
  | Ok (a : A)
  | Err (e : exn).
Arguments Ok {A} a.
Arguments Err {A} e.

(** Sequencing: an exception propagates. *)
Definition rbind {A B} (m : result A) (f : A -> result B) : result B :=
  match m with Ok a => f a | Err e => Err e end.

Notation "'let*' x ':=' m 'in' k" := (rbind m (fun x => k))
  (at level 200, x name, m at level 100, right associativity).
Notation "'let*' ( x , y ) ':=' m 'in' k" := (rbind m (fun '(x, y) => k))
  (at level 200, x name, y name, m at level 100, right associativity).

(** A Python dict with string keys. *)
Abbreviation pydict := (gmap string pyval).

(** [d.get(k, dflt)] *)
Definition py_get (d : pydict) (k : string) (dflt : pyval) : pyval :=
  match d !! k with Some v => v | None => dflt end.

(** Truthiness: [None], [0] and [""] are false. *)
Definition truthy (v : pyval) : bool :=
  match v with
  | PNone => false
  | PNum q => negb (Qeq_bool q 0)
  | PStr s => negb (String.eqb s "")
  end.

(** Strict order on rationals as a boolean. *)
Definition Qlt_bool (x y : Q) : bool := negb (Qle_bool y x).

(** [v > c] and [v < c] against a number: comparing [None] or a [str] with a
    number raises [TypeError] in Python 3. *)
Definition py_gt (v : pyval) (c : Q) : result bool :=
  match v with PNum q => Ok (Qlt_bool c q) | _ => Err TypeError end.
Definition py_lt (v : pyval) (c : Q) : result bool :=
  match v with PNum q => Ok (Qlt_bool q c) | _ => Err TypeError end.

(** [v and v > c] / [v and v < c] used as a condition. *)
Definition and_gt (v : pyval) (c : Q) : result bool :=
  if truthy v then py_gt v c else Ok false.
Definition and_lt (v : pyval) (c : Q) : result bool :=
  if truthy v then py_lt v c else Ok false.

(** [int(x)] for a non-negative [x]: truncation toward zero. *)
Definition py_int_nonneg (x : Q) : Z := Qfloor x.

(* ------------------------------------------------------------------ *)
(** ** Fundamental scorer (analysis.py, Analyzer) *)
Module Fundamentals.

(** One [score += 1 if cond] line per check of [get_piotroski_score]; the
    [try: ... except: pass] around them keeps the points already counted
    when a check raises and skips the remaining ones. *)
Fixpoint run_checks (checks : list (result bool)) (score : nat) : nat :=
  match checks with
  | [] => score
  | Ok b :: rest => run_checks rest (if b then S score else score)
  | Err _ :: _ => score
  end.

Definition piotroski_checks (info : pydict) : list (result bool) :=
  [ and_gt (py_get info "returnOnAssets" (PNum 0)) 0;
    and_gt (py_get info "operatingCashflow" (PNum 0)) 0;
    py_gt (py_get info "revenuePerShare" (PNum 0)) 0;
    and_gt (py_get info "currentRatio" (PNum 0)) 1;
    and_lt (py_get info "debtToEquity" (PNum 0)) 1 ].

(** [Analyzer.get_piotroski_score]: [int((score / 5) * 9)]. *)
Definition get_piotroski_score (info : pydict) : Z :=
  let score := run_checks (piotroski_checks info) 0 in
  py_int_nonneg (inject_Z (Z.of_nat score) / 5 * 9)%Q.

(** The value returned by [calculate_graham_number]: either [0] or
    [math.sqrt(x)] for the positive rational [x = 22.5 * eps * bvps], kept
    symbolic so that comparisons with it stay exact. *)
Inductive graham := GZero | GSqrt (x : Q).

(** [p < math.sqrt(x)] for [x > 0], decided exactly
    (see [sqrt_lt_correct] below). *)
Definition Q_lt_sqrt (p x : Q) : bool := Qlt_bool p 0 || Qlt_bool (p * p) x.

(** [Analyzer.calculate_graham_number]:
    [if eps and bvps and eps > 0 and bvps > 0: return math.sqrt(22.5*eps*bvps)]. *)
Definition calculate_graham_number (info : pydict) : result graham :=
  let eps := py_get info "trailingEps" PNone in
  let bvps := py_get info "bookValue" PNone in
  if truthy eps && truthy bvps then
    let* e := py_gt eps 0 in
    if e then
      let* b := py_gt bvps 0 in
      if b then
        match eps, bvps with
        | PNum e, PNum b => Ok (GSqrt ((45 # 2) * e * b))
        | _, _ => Ok GZero
        end
      else Ok GZero
    else Ok GZero
  else Ok GZero.

Definition graham_truthy (g : graham) : bool :=
  match g with GZero => false | GSqrt _ => true end.

(** [current_price < graham_num] *)
Definition py_lt_graham (v : pyval) (g : graham) : result bool :=
  match v, g with
  | PNum p, GSqrt x => Ok (Q_lt_sqrt p x)
  | PNum p, GZero => Ok (Qlt_bool p 0)
  | _, _ => Err TypeError
  end.

(** [0 < v < hi] (a chained comparison: [0 < v and v < hi]). *)
Definition between0 (v : pyval) (hi : Q) : result bool :=
  let* lo := py_gt v 0 in
  if lo then py_lt v hi else Ok false.

Definition is_none (v : pyval) : bool :=
  match v with PNone => true | _ => false end.

(** [Analyzer.score_fundamental]: points over checks. *)
Definition score_fundamental (info : pydict) : result Q :=
  if decide (info = ∅) then Ok 0%Q else
  (* 1. Graham value *)
  let* g := calculate_graham_number info in
  let current_price :=
    py_get info "currentPrice" (py_get info "previousClose" (PNum 0)) in
  let* c1 := (if graham_truthy g && truthy current_price
        then py_lt_graham current_price g else Ok false) in
  let score := (if c1 then 2 else 0)%Z in
  let checks := 2%Z in
  (* 2. Piotroski F-score *)
  let f_score := get_piotroski_score info in
  let score := (score + (if Z.leb 7 f_score then 2
                         else if Z.leb 5 f_score then 1 else 0))%Z in
  let checks := (checks + 2)%Z in
  (* 3. PE valuation *)
  let pe := py_get info "trailingPE" PNone in
  let* (score, checks) :=
    (if truthy pe then
       let* b := between0 pe 40 in
       Ok ((if b then score + 1 else score)%Z, (checks + 1)%Z)
     else
       let* n := py_lt (py_get info "trailingEps" (PNum 0)) 0 in
       Ok (score, if n then (checks + 1)%Z else checks)) in
  (* 4. PEG *)
  let peg := py_get info "pegRatio" PNone in
  let* (score, checks) :=
    (if negb (is_none peg) then
       let* b := between0 peg 2 in
       Ok ((if b then score + 1 else score)%Z, (checks + 1)%Z)
     else Ok (score, checks)) in
  (* 5. ROE *)
  let roe := py_get info "returnOnEquity" PNone in
  let* (score, checks) :=
    (if truthy roe then
       let* b := py_gt roe (1 # 10) in
       Ok ((if b then score + 1 else score)%Z, (checks + 1)%Z)
     else Ok (score, checks)) in
  (* 6. D/E *)
  let de := py_get info "debtToEquity" PNone in
  let* (score, checks) :=
    (if negb (is_none de) then
       let* b := py_lt de 100 in
       Ok ((if b then score + 1 else score)%Z, (checks + 1)%Z)
     else Ok (score, checks)) in
  Ok (if Z.ltb 0 checks then (inject_Z score / inject_Z checks)%Q else 0%Q).

End Fundamentals.

(** The keys [score_fundamental] (with its helpers) reads. *)
Definition score_keys : list string :=
  ["trailingEps"; "bookValue"; "currentPrice"; "previousClose";
   "returnOnAssets"; "operatingCashflow"; "revenuePerShare"; "currentRatio";
   "debtToEquity"; "trailingPE"; "pegRatio"; "returnOnEquity"].

(** A key is usable when it holds a number. *)
Definition usable (v : option pyval) : bool :=
  match v with Some (PNum _) => true | _ => false end.

(** Reading of the quality-score rules in the spec's words: one point per
    satisfied rule, for a snapshot whose values are numbers, [None] or absent;
    a rule on a value that is absent or [None] is not satisfied. *)
Definition num_gt (v : option pyval) (c : Q) : bool :=
  match v with Some (PNum q) => Qlt_bool c q | _ => false end.
Definition num_lt (v : option pyval) (c : Q) : bool :=
  match v with Some (PNum q) => Qlt_bool q c | _ => false end.

Definition quality_tally (info : pydict) : nat :=
  Nat.b2n (num_gt (info !! "returnOnAssets") 0) +
  Nat.b2n (num_gt (info !! "operatingCashflow") 0) +
  Nat.b2n (num_gt (info !! "revenuePerShare") 0) +
  Nat.b2n (num_gt (info !! "currentRatio") 1) +
  Nat.b2n (num_lt (info !! "debtToEquity") 1).

(** Values the amended quality-score statement covers. *)
Definition num_or_none (v : option pyval) : Prop :=
  match v with Some (PStr _) => False | _ => True end.

(* ------------------------------------------------------------------ *)
(** ** Technical indicator engine (analysis.py, Analyzer) *)
Module Technicals.

(** A row of the price history ([hist.to_dict('records')]); only the close
    is read by the indicator engine. *)
Record PricePoint := { Close : Q }.

(** A history row enriched in place by [calculate_technicals]. *)
Record TechRow := {
  t_Close : Q;
  t_RSI : Q;
  t_SMA_50 : option Q;       (* [None] in the warm-up *)
  t_SMA_200 : option Q;
  t_MACD_Diff : Q }.

Definition Qsum (l : list Q) : Q := fold_right Qplus 0%Q l.

(** [prices[a:b]] for [0 <= a <= b]. *)
Definition slice {A} (a b : nat) (l : list A) : list A := firstn (b - a) (skipn a l).

(** [Analyzer._calculate_sma] *)
Definition calculate_sma (prices : list Q) (window : nat) : list (option Q) :=
  map (fun i => if Nat.ltb i (window - 1) then None
                else Some (Qsum (slice (i + 1 - window) (i + 1) prices)
                           / inject_Z (Z.of_nat window))%Q)
      (seq 0 (length prices)).

Fixpoint ema_from (multiplier prev : Q) (prices : list Q) : list Q :=
  match prices with
  | [] => []
  | price :: rest =>
      let ema := ((price - prev) * multiplier + prev)%Q in
      ema :: ema_from multiplier ema rest
  end.

(** [Analyzer._calculate_ema]: seeded by the first price. *)
Definition calculate_ema (prices : list Q) (window : nat) : list Q :=
  match prices with
  | [] => []
  | p0 :: rest => p0 :: ema_from (2 / inject_Z (Z.of_nat window + 1))%Q p0 rest
  end.

(** The "subsequent" loop of [_calculate_rsi], from index [window + 1]. *)
Fixpoint rsi_from (w : Q) (avg_gain avg_loss prev : Q) (prices : list Q) : list Q :=
  match prices with
  | [] => []
  | price :: rest =>
      let delta := (price - prev)%Q in
      let gain := if Qlt_bool 0 delta then delta else 0%Q in
      let loss := if Qlt_bool delta 0 then Qabs delta else 0%Q in
      let avg_gain := ((avg_gain * (w - 1) + gain) / w)%Q in
      let avg_loss := ((avg_loss * (w - 1) + loss) / w)%Q in
      (if Qeq_bool avg_loss 0 then 100%Q
       else (100 - 100 / (1 + avg_gain / avg_loss))%Q)
      :: rsi_from w avg_gain avg_loss price rest
  end.

Fixpoint deltas (prices : list Q) : list Q :=
  match prices with
  | p :: (q :: _) as rest => (q - p)%Q :: deltas rest
  | _ => []
  end.

(** [Analyzer._calculate_rsi]. The numpy lines at its top ([np.diff],
    [seed], [up], [down], [rs], [np.zeros_like]) compute values that are
    never used. [rsis[window]] keeps its default 50. *)
Definition calculate_rsi (prices : list Q) (window : nat) : list Q :=
  if Nat.ltb window (length prices) then
    let w := inject_Z (Z.of_nat window) in
    let ds := deltas (firstn (window + 1) prices) in
    let gains := map (fun d => if Qlt_bool 0 d then d else 0%Q) ds in
    let losses := map (fun d => if Qlt_bool 0 d then 0%Q else Qabs d) ds in
    repeat 50%Q (window + 1) ++
      rsi_from w (Qsum gains / w) (Qsum losses / w)
        (nth window prices 0%Q) (skipn (window + 1) prices)
  else repeat 50%Q (length prices).

(** [Analyzer.calculate_technicals]: [None] for fewer than 50 rows. *)
Definition calculate_technicals (history : list PricePoint) : option (list TechRow) :=
  if Nat.ltb (length history) 50 then None else
  let closes := map Close history in
  let sma_50 := calculate_sma closes 50 in
  let sma_200 := calculate_sma closes 200 in
  let rsi := calculate_rsi closes 14 in
  let ema_12 := calculate_ema closes 12 in
  let ema_26 := calculate_ema closes 26 in
  let macd_line := zip_with Qminus ema_12 ema_26 in
  let signal_line := calculate_ema macd_line 9 in
  let macd_diff := zip_with Qminus macd_line signal_line in
  Some (map (fun i =>
          {| t_Close := nth i closes 0%Q;
             t_RSI := nth i rsi 0%Q;
             t_SMA_50 := nth i sma_50 None;
             t_SMA_200 := nth i sma_200 None;
             t_MACD_Diff := nth i macd_diff 0%Q |})
        (seq 0 (length history))).

(** Truthiness of an optional float ([None] and [0.0] are false). *)
Definition otruthy (v : option Q) : bool :=
  match v with Some q => negb (Qeq_bool q 0) | None => false end.

(** The points and checks [get_technical_score] accumulates on the last row. *)
Definition technical_points_checks (last_row : TechRow) : Z * Z :=
  let rsi := t_RSI last_row in
  let score := (if Qlt_bool 40 rsi && Qlt_bool rsi 70 then 1
                else if Qle_bool rsi 30 then 2 else 0)%Z in
  let checks := 2%Z in
  let score := (if Qlt_bool 0 (t_MACD_Diff last_row) then score + 1 else score)%Z in
  let checks := (checks + 1)%Z in
  let sma50 := t_SMA_50 last_row in
  let sma200 := t_SMA_200 last_row in
  let score := (if otruthy sma50 && otruthy sma200 &&
                   match sma50, sma200 with
                   | Some a, Some b => Qlt_bool b a | _, _ => false end
                then score + 1 else score)%Z in
  let checks := (checks + 1)%Z in
  let close := t_Close last_row in
  let score := (if negb (Qeq_bool close 0) && otruthy sma200 &&
                   match sma200 with Some b => Qlt_bool b close | None => false end
                then score + 1 else score)%Z in
  let checks := (checks + 1)%Z in
  (score, checks).

(** [Analyzer.get_technical_score]: [score / checks if checks > 0 else 0]. *)
Definition get_technical_score (history : list TechRow) : Q :=
  match last history with
  | None => 0%Q
  | Some last_row =>
      let '(score, checks) := technical_points_checks last_row in
      if Z.ltb 0 checks then (inject_Z score / inject_Z checks)%Q else 0%Q
  end.

End Technicals.

(* ------------------------------------------------------------------ *)
(** ** Per-entity scoring (strategy.py, RecommendationEngine.process_stock) *)
Module Strategy.
Import Fundamentals Technicals.

(** The attributes class [Analyzer] (analysis.py) defines. *)
Definition analyzer_methods : list string :=
  ["__init__"; "_calculate_sma"; "_calculate_ema"; "_calculate_rsi";
   "calculate_technicals"; "get_piotroski_score"; "calculate_graham_number";
   "score_fundamental"; "get_investment_thesis"; "get_technical_score";
   "analyze_sentiment"].

(** [self.analyzer.<name>]: attribute lookup on the instance, which raises
    [AttributeError] for a name the class does not define. *)
Definition getattr_analyzer (name : string) : result unit :=
  if decide (name ∈ analyzer_methods) then Ok tt else Err AttributeError.

(** [config['weights']] *)
Record Weights := {
  w_technical : Q;
  w_fundamental : Q;
  w_sentiment : Q }.

(** The record [process_stock] builds (the passthrough fundamentals and the
    Big Bets fields are left out). *)
Record ScoredEntity := {
  se_Ticker : pyval;
  se_Name : pyval;
  se_Close : Q;
  se_Final_Score : Q;
  se_Tech_Score : Q;
  se_Fund_Score : Q;
  se_Sent_Score : Q;
  se_Pre_Score : Q;
  se_Forecast_Score : Q;
  se_Intrinsic_Value : Q;
  se_Margin_Safety : Q;
  se_Reason : string }.

(** [try: fund_score = self.analyzer.score_fundamental(funds)
     except: fund_score = 0] in [process_stock]. *)
Definition fund_score_of (funds : pydict) : Q :=
  match (let* _ := getattr_analyzer "score_fundamental" in
         score_fundamental funds) with
  | Ok v => v
  | Err _ => 0%Q
  end.

Section ProcessStock.

(** External collaborators: the data ingestor (network fetches, which may
    raise), VADER's compound polarity of a headline, the narrative of
    [get_investment_thesis] with the DCF prefix of lines 56-59 (string
    formatting, not modelled), and whatever
    a method named [calculate_intrinsic_value] would compute were it
    defined. *)
Variable history_period : string.
Variable weights : Weights.
Variable fetch_stock_history : pyval -> string -> result (list PricePoint).
Variable fetch_fundamentals : pyval -> result pydict.
Variable fetch_news : pyval -> result (list string).
Variable polarity_compound : string -> Q.
Variable investment_thesis : Q -> Q -> Q -> Q -> pydict -> string.
Variable calculate_intrinsic_value : pydict -> result (Q * Q).

(** [Analyzer.analyze_sentiment] *)
Definition analyze_sentiment (headlines : list string) : Q :=
  match headlines with
  | [] => 1 # 2
  | _ => let scores := map polarity_compound headlines in
         ((Qsum scores / inject_Z (Z.of_nat (length scores)) + 1) / 2)%Q
  end.

(** [RecommendationEngine.process_stock]: the body runs inside
    [try: ... except Exception: return None]. *)
Definition process_stock (row : pydict) : option ScoredEntity :=
  let body : result (option ScoredEntity) :=
    let ticker := py_get row "Ticker" PNone in
    let name := py_get row "NAME OF COMPANY" ticker in
    let* hist := fetch_stock_history ticker history_period in
    let* funds := fetch_fundamentals ticker in
    let* news := fetch_news name in
    match hist with [] => Ok None | _ =>
    let* _ := getattr_analyzer "calculate_technicals" in
    match calculate_technicals hist with
    | None | Some [] => Ok None
    | Some hist_tech =>
      let* _ := getattr_analyzer "get_technical_score" in
      let tech_score := get_technical_score hist_tech in
      let fund_score := fund_score_of funds in
      let* _ := getattr_analyzer "analyze_sentiment" in
      let sent_score := analyze_sentiment news in
      (* Buffett DCF valuation *)
      let* _ := getattr_analyzer "calculate_intrinsic_value" in
      let* (intrinsic_val, margin_safety) := calculate_intrinsic_value funds in
      let pre_score := (w_technical weights * tech_score +
                        w_fundamental weights * fund_score +
                        w_sentiment weights * sent_score)%Q in
      let last_price := match last hist_tech with
                        | Some r => t_Close r | None => 0%Q end in
      (* [round(last_price, 2)] in the record is not modelled *)
      let* _ := getattr_analyzer "get_investment_thesis" in
      let reason := investment_thesis tech_score sent_score last_price margin_safety funds in
      Ok (Some {| se_Ticker := ticker; se_Name := name; se_Close := last_price;
                  se_Final_Score := pre_score; se_Tech_Score := tech_score;
                  se_Fund_Score := fund_score; se_Sent_Score := sent_score;
                  se_Pre_Score := pre_score; se_Forecast_Score := 0%Q;
                  se_Intrinsic_Value := intrinsic_val;
                  se_Margin_Safety := margin_safety; se_Reason := reason |})
    end
    end in
  match body with Ok r => r | Err _ => None end.

End ProcessStock.
End Strategy.

(* ------------------------------------------------------------------ *)
(** ** Medium-term (Big Bets) engine (medium_term_strategy.py) *)
Module MediumTerm.

(** A row after [preprocess_data]: every column the tallies read is numeric
    ([pd.to_numeric(..., errors='coerce').fillna(0)]) when present, and
    [None] when the table has no such column. *)
Record BigBetsRow := {
  ROCE : option Q; ROE : option Q; OPM : option Q; FreeCashFlow : option Q;
  DebtToEquity : option Q; InterestCoverage : option Q;
  PromoterHolding : option Q; PromoterHoldingChange3Y : option Q;
  SalesGrowth3Y : option Q; ProfitGrowth3Y : option Q;
  QtrSalesGrowth : option Q; QtrProfitGrowth : option Q;
  CMP : option Q; DMA_200 : option Q; RSI : option Q }.

(** [row.get(col, default)] *)
Definition get (v : option Q) (dflt : Q) : Q :=
  match v with Some q => q | None => dflt end.

Definition incr (cond : bool) (pts : nat) (score : nat) : nat :=
  if cond then score + pts else score.

(** [MediumTermEngine.quality_score] *)
Definition quality_score (row : BigBetsRow) : nat :=
  let score := 0 in
  (* Quality *)
  let score := incr (Qlt_bool 15 (get (ROCE row) 0)) 1 score in
  let score := incr (Qlt_bool 15 (get (ROE row) 0)) 1 score in
  let score := incr (Qlt_bool 12 (get (OPM row) 0)) 1 score in
  let score := incr (Qlt_bool 0 (get (FreeCashFlow row) 0)) 1 score in
  (* Safety *)
  let score := incr (Qlt_bool (get (DebtToEquity row) 1) (1 # 2) ||
                     Qlt_bool 5 (get (InterestCoverage row) 0)) 1 score in
  let score := incr (Qlt_bool 50 (get (PromoterHolding row) 0)) 1 score in
  let score := incr (Qle_bool 0 (get (PromoterHoldingChange3Y row) 0)) 1 score in
  (* Growth *)
  let score := incr (Qlt_bool 10 (get (SalesGrowth3Y row) 0)) 1 score in
  let score := incr (Qlt_bool 12 (get (ProfitGrowth3Y row) 0)) 1 score in
  (* Trend *)
  let score := incr (Qlt_bool (get (DMA_200 row) 0) (get (CMP row) 0)) 1 score in
  let score := incr (Qle_bool 45 (get (RSI row) 50) && Qle_bool (get (RSI row) 50) 70) 1 score in
  score.

(** [MediumTermEngine.roi_6to12_score] *)
Definition roi_6to12_score (row : BigBetsRow) : nat :=
  let score := 0 in
  (* Minimum business quality *)
  let score := incr (Qlt_bool 15 (get (ROCE row) 0)) 1 score in
  let score := incr (Qlt_bool 15 (get (ROE row) 0)) 1 score in
  let score := incr (Qlt_bool 12 (get (OPM row) 0)) 1 score in
  let score := incr (Qlt_bool 0 (get (FreeCashFlow row) 0)) 1 score in
  (* Financial safety *)
  let score := incr (Qlt_bool (get (DebtToEquity row) 1) (1 # 2) ||
                     Qlt_bool 5 (get (InterestCoverage row) 0)) 1 score in
  let score := incr (Qlt_bool 50 (get (PromoterHolding row) 0)) 1 score in
  let score := incr (Qle_bool 0 (get (PromoterHoldingChange3Y row) 0)) 1 score in
  (* Growth (re-rating fuel) *)
  let score := incr (Qlt_bool 10 (get (SalesGrowth3Y row) 0)) 1 score in
  let score := incr (Qlt_bool 12 (get (ProfitGrowth3Y row) 0)) 1 score in
  (* Earnings trigger (MOST IMPORTANT) *)
  let score := incr (Qlt_bool 15 (get (QtrProfitGrowth row) 0)) 2 score in
  let score := incr (Qlt_bool 10 (get (QtrSalesGrowth row) 0)) 1 score in
  (* Trend confirmation *)
  let score := incr (Qlt_bool (get (DMA_200 row) 0) (get (CMP row) 0)) 1 score in
  let score := incr (Qle_bool 45 (get (RSI row) 50) && Qle_bool (get (RSI row) 50) 70) 1 score in
  score.

End MediumTerm.

(* ------------------------------------------------------------------ *)
(** ** Portfolio diff tracker (portfolio_manager.py) *)
Module PortfolioManager.

(** A row of [portfolio_history.csv]. *)
Record Entry := {
  Date : string; Ticker : string; Name : string; Action : string;
  Rank : Z; Price : Q; Score : Q }.

(** A row of [current_rec_df]; [r_index] is the row label seen by
    [iterrows] ([Some i] for an integer label). *)
Record RecRow := {
  r_index : option Z; r_Ticker : string; r_Name : string;
  r_Close : Q; r_Final_Score : Q }.

(** [history_df['Date'].max()] on the string column, [None] when the
    ledger is empty. *)
Definition last_date (history : list Entry) : option string :=
  match history with
  | [] => None
  | e :: rest =>
      Some (fold_left (fun m x => if String.ltb m (Date x) then Date x else m)
              rest (Date e))
  end.

(** [set(last_recs[last_recs['Action'] == 'HOLD']['Ticker'])], before
    Python picks an iteration order for the set. *)
Definition held_set (history : list Entry) : list string :=
  match last_date history with
  | None => []
  | Some ld =>
      remove_dups (map Ticker (List.filter
        (fun e => String.eqb (Date e) ld && String.eqb (Action e) "HOLD") history))
  end.

(** [history_df[(Date == last_date) & (Ticker == tick)].iloc[0]] *)
Definition first_row (history : list Entry) (ld tick : string) : result Entry :=
  match List.filter (fun e => String.eqb (Date e) ld && String.eqb (Ticker e) tick)
          history with
  | e :: _ => Ok e
  | [] => Err IndexError
  end.

(** One record per row of today's recommendations. *)
Definition entry_of_row (today : string) (previous_tickers : list string)
    (row : RecRow) : Entry :=
  {| Date := today; Ticker := r_Ticker row; Name := r_Name row;
     Action := if bool_decide (r_Ticker row ∈ previous_tickers)
               then "HOLD" else "NEW_ENTRY";
     Rank := match r_index row with Some i => (i + 1)%Z | None => 0%Z end;
     Price := r_Close row; Score := r_Final_Score row |}.

(** The dropout loop: [for tick in previous_tickers: if tick not in
    current_tickers: ...]. *)
Fixpoint dropouts (today : string) (history : list Entry) (ld : string)
    (current_tickers : list string) (ticks : list string) : result (list Entry) :=
  match ticks with
  | [] => Ok []
  | tick :: rest =>
      if bool_decide (tick ∈ current_tickers)
      then dropouts today history ld current_tickers rest
      else
        let* prev_row := first_row history ld tick in
        let* tl := dropouts today history ld current_tickers rest in
        Ok ({| Date := today; Ticker := tick; Name := Name prev_row;
               Action := "DROPOUT"; Rank := (-1)%Z; Price := Price prev_row;
               Score := 0 |} :: tl)
  end.

Section UpdatePortfolio.
(** The order in which Python iterates the set [previous_tickers]. *)
Variable iter_order : list string -> list string.

(** [PortfolioManager.update_portfolio]: returns [new_df] together with the
    ledger written back to [portfolio_history.csv]. *)
Definition update_portfolio (today : string) (history_df : list Entry)
    (current_rec_df : list RecRow) : result (list Entry * list Entry) :=
  let previous_tickers := iter_order (held_set history_df) in
  let current_tickers := map r_Ticker current_rec_df in
  let entries := map (entry_of_row today previous_tickers) current_rec_df in
  let* drops :=
    match last_date history_df with
    | None => Ok []
    | Some ld => dropouts today history_df ld current_tickers previous_tickers
    end in
  let new_entries := entries ++ drops in
  Ok (new_entries, history_df ++ new_entries).

End UpdatePortfolio.

End PortfolioManager.

(* ------------------------------------------------------------------ *)
(** ** Price forecaster (models.py) *)
Module Forecast.
Local Open Scope R_scope.

(** Floats are modelled as exact reals. *)
Fixpoint Rsum (l : list R) : R :=
  match l with [] => 0 | x :: t => x + Rsum t end.

(** [np.mean] *)
Definition Rmean (l : list R) : R := Rsum l / INR (length l).

(** [np.std] (population standard deviation) *)
Definition Rstd (l : list R) : R :=
  sqrt (Rsum (map (fun x => (x - Rmean l) ^ 2) l) / INR (length l)).

(** *** The regressor: [RandomForestRegressor(n_estimators=100, max_depth=15,
    random_state=42)], squared-error criterion, best splitter, all features
    considered at every node. *)
Inductive Tree := Leaf (v : R) | Node (f : nat) (thr : R) (l r : Tree).

Record Forest := { estimators : list Tree; n_features_in : nat }.

Fixpoint tree_predict (t : Tree) (x : list R) : R :=
  match t with
  | Leaf v => v
  | Node f thr l r =>
      if Rle_dec (nth f x 0) thr then tree_predict l x else tree_predict r x
  end.

(** [predict] on one row: a width other than the fitted one is a ValueError;
    otherwise the mean of the trees' predictions. *)
Definition forest_predict (m : Forest) (x : list R) : result R :=
  if Nat.eqb (length x) (n_features_in m)
  then Ok (Rmean (map (fun t => tree_predict t x) (estimators m)))
  else Err ValueError.

Fixpoint insert_by (key : nat -> R) (i : nat) (l : list nat) : list nat :=
  match l with
  | [] => [i]
  | j :: t => if Rle_dec (key i) (key j) then i :: l else j :: insert_by key i t
  end.

Definition sort_by (key : nat -> R) (l : list nat) : list nat :=
  fold_right (insert_by key) [] l.

(** Candidate splits of the samples [idx] on feature [f]: one between every
    two consecutive distinct sorted values, with the criterion's proxy
    improvement [sum_l^2/n_l + sum_r^2/n_r] and the midpoint threshold. *)
Definition split_candidates (X : list (list R)) (y : list R) (idx : list nat)
    (f : nat) : list (R * nat * R) :=
  let key i := nth f (nth i X []) 0 in
  let s := sort_by key idx in
  let ys := map (fun i => nth i y 0) s in
  let n := length s in
  flat_map (fun p =>
      let a := key (nth (p - 1) s O) in
      let b := key (nth p s O) in
      if Rlt_dec a b then
        let sl := Rsum (firstn p ys) in
        let sr := Rsum (skipn p ys) in
        [(sl * sl / INR p + sr * sr / INR (n - p), f, (a + b) / 2)]
      else [])
    (seq 1 (n - 1)).

(** The first candidate with the largest proxy improvement. *)
Definition best_split (X : list (list R)) (y : list R) (idx : list nat)
    (nf : nat) : option (nat * R) :=
  let best := fold_left (fun acc c =>
      match acc with
      | None => Some c
      | Some (q0, _, _) => let '(q, _, _) := c in
          if Rlt_dec q0 q then Some c else acc
      end) (flat_map (split_candidates X y idx) (seq 0 nf)) None in
  option_map (fun '(_, f, thr) => (f, thr)) best.

(** Depth-first tree building: a node is a leaf at the depth limit, with
    fewer than two samples, or with zero impurity (all targets equal). *)
Fixpoint grow (d : nat) (X : list (list R)) (y : list R) (nf : nat)
    (idx : list nat) : Tree :=
  let ys := map (fun i => nth i y 0) idx in
  match d with
  | O => Leaf (Rmean ys)
  | S d' =>
      if Nat.ltb (length idx) 2 then Leaf (Rmean ys)
      else if Rle_dec (Rsum (map (fun v => (v - Rmean ys) ^ 2) ys)) 0
      then Leaf (Rmean ys)
      else match best_split X y idx nf with
           | None => Leaf (Rmean ys)
           | Some (f, thr) =>
               let goes_left i := if Rle_dec (nth f (nth i X []) 0) thr
                                  then true else false in
               Node f thr (grow d' X y nf (List.filter goes_left idx))
                          (grow d' X y nf (List.filter (fun i => negb (goes_left i)) idx))
           end
  end.

Section Regressor.
(** The bootstrap samples drawn by the seeded generator for a training set
    of [n] rows: one list of row indices per estimator. *)
Variable draws : nat -> list (list nat).

Definition fit (X : list (list R)) (y : list R) : Forest :=
  let nf := match X with [] => O | x :: _ => length x end in
  {| estimators := map (grow 15 X y nf) (draws (length X)); n_features_in := nf |}.
End Regressor.

(** Bootstrap draws that take every row once, for each of the 100
    estimators. *)
Definition full_draws (n : nat) : list (list nat) := repeat (seq 0 n) 100.

(** *** The forecaster object and its methods *)
Record Forecaster := { lookback : nat; model : option Forest }.

(** [Forecaster(lookback)] *)
Definition fresh (lb : nat) : Forecaster := {| lookback := lb; model := None |}.

(** Methods run on [self] and may raise; an exception leaves every update of
    [self] made before it in place. *)
Definition FM (A : Type) := Forecaster -> result A * Forecaster.
Definition fret {A} (a : A) : FM A := fun s => (Ok a, s).
Definition lift {A} (r : result A) : FM A := fun s => (r, s).
Definition fbind {A B} (m : FM A) (k : A -> FM B) : FM B :=
  fun s => match m s with (Ok a, s') => k a s' | (Err e, s') => (Err e, s') end.
Notation "'let!' x ':=' m 'in' k" := (fbind m (fun x => k))
  (at level 200, x name, m at level 100, right associativity).
Definition get_self : FM Forecaster := fun s => (Ok s, s).
Definition set_model (m : Forest) : FM unit :=
  fun s => (Ok tt, {| lookback := lookback s; model := Some m |}).

(** [l[-k:]] *)
Definition py_last_k (k : nat) (l : list R) : list R :=
  match k with O => l | _ => skipn (length l - k) l end.

(** [_extract_features]: the window, its standard deviation and its
    momentum [(w[-1] - w[0]) / (w[0] + 1e-9)]; [w[0]] raises on an empty
    window. *)
Definition extract_features (window : list R) : result (list R) :=
  match window with
  | [] => Err IndexError
  | w0 :: _ =>
      Ok (window ++ [Rstd window;
                     (List.last window w0 - w0) / (w0 + / 10 ^ 9)])
  end.

Fixpoint result_mapM {A B} (f : A -> result B) (l : list A) : result (list B) :=
  match l with
  | [] => Ok []
  | x :: t => let* b := f x in let* bs := result_mapM f t in Ok (b :: bs)
  end.

(** [prepare_data] on the closes [float(x['Close'])] of the history; any
    exception is caught and gives [(None, None)]. *)
Definition prepare_data (lb : nat) (closes : list R)
    : option (list (list R) * list R) :=
  if Nat.ltb (length closes) (lb + 5) then None
  else
    let idx := seq 0 (length closes - lb) in
    match result_mapM (fun i => extract_features (firstn lb (skipn i closes))) idx with
    | Err _ => None
    | Ok X => Some (X, map (fun i => nth (i + lb) closes 0) idx)
    end.

Section Methods.
Variable draws : nat -> list (list nat).

(** [train_model]: fits and stores a model when at least 10 training rows
    were prepared; otherwise [self.model] is left as it was. *)
Definition train_model (closes : list R) : FM unit :=
  let! self := get_self in
  match prepare_data (lookback self) closes with
  | None => fret tt
  | Some (X, y) =>
      if Nat.ltb (length X) 10 then fret tt else set_model (fit draws X y)
  end.

(** [np.roll(current_window, -1)] followed by [current_window[-1] = pred] *)
Definition roll_set (window : list R) (pred : R) : result (list R) :=
  match window with
  | [] => Err IndexError
  | _ :: t => Ok (t ++ [pred])
  end.

(** The recursive prediction loop of [predict_next_days]. *)
Fixpoint predict_loop (m : Forest) (days : nat) (window : list R)
    : result (list R) :=
  match days with
  | O => Ok []
  | S d =>
      let* feats := extract_features window in
      let* pred := forest_predict m feats in
      let* window' := roll_set window pred in
      let* rest := predict_loop m d window' in
      Ok (pred :: rest)
  end.

(** [predict_next_days]: trains only when [self.model is None]. *)
Definition predict_next_days (closes : list R) (days : nat) : FM (list R) :=
  let! self := get_self in
  let! trained :=
    match model self with
    | Some m => fret (Some m)
    | None => let! _ := train_model closes in
              let! self' := get_self in
              fret (model self')
    end in
  match trained with
  | None => fret []
  | Some m =>
      let! self' := get_self in
      lift (predict_loop m days (py_last_k (lookback self') closes))
  end.

(** The final comparison of [get_forecast_score]. *)
Definition forecast_verdict (current_price avg_pred : R) : R :=
  if Rlt_dec (current_price * (102 / 100)) avg_pred then 1
  else if Rlt_dec avg_pred current_price then 0
  else 1 / 2.

(** [get_forecast_score]: every exception is caught and gives 0.5; the
    forecaster's state after the call is returned alongside the score. *)
Definition get_forecast_score (closes : list R) (self : Forecaster)
    : R * Forecaster :=
  let body : FM R :=
    match closes with
    | [] => fret (1 / 2)
    | c0 :: _ =>
        let current_price := List.last closes c0 in
        let! preds := predict_next_days closes 5 in
        match preds with
        | [] => fret (1 / 2)
        | _ => fret (forecast_verdict current_price (Rmean preds))
        end
    end in
  match body self with
  | (Ok v, self') => (v, self')
  | (Err _, self') => (1 / 2, self')
  end.

End Methods.

End Forecast.

(* ------------------------------------------------------------------ *)
(** ** Scan orchestrator ([RecommendationEngine.run_full_analysis]) *)
Module Pipeline.
Import Forecast.
Local Open Scope R_scope.

(** A row of the universe ([get_nse_equity_list]). *)
Record Stock := { sTicker : string; sName : string }.

(** A row of the result set.  Rows read back from [full_analysis.csv] are
    modelled with their numeric fields already parsed ([float(...)]). *)
Record Row := {
  rTicker : string; Pre_Score : R; Final_Score : R; Forecast_Score : R;
  Tech_Score : R; Fund_Score : R; Sent_Score : R }.

(** The network fetches of the data ingestor: [nse_eq_symbols()] and the
    download of [EQUITY_L.csv] in [get_nse_equity_list], and the per-ticker
    fetches. *)
Inductive Fetch :=
| FetchSymbols
| FetchEquityCsv
| FetchHistory (ticker : string)
| FetchFundamentals (ticker : string)
| FetchNews (name : string).

(** [config['weights']]; only the forecast weight is read with a default. *)
Record PWeights := {
  w_technical : R; w_fundamental : R; w_sentiment : R; w_forecast : option R }.

Definition set_scores (row : Row) (fs fin : R) : Row :=
  {| rTicker := rTicker row; Pre_Score := Pre_Score row; Final_Score := fin;
     Forecast_Score := fs; Tech_Score := Tech_Score row;
     Fund_Score := Fund_Score row; Sent_Score := Sent_Score row |}.

(** [list.sort(key=..., reverse=True)]: stable, so rows with equal keys keep
    their order. *)
Fixpoint insert_desc (key : Row -> R) (x : Row) (l : list Row) : list Row :=
  match l with
  | [] => [x]
  | y :: t => if Rlt_dec (key x) (key y) then y :: insert_desc key x t else x :: l
  end.

Definition sort_desc (key : Row -> R) (l : list Row) : list Row :=
  fold_right (insert_desc key) [] l.

(** Score boosting: [if final_score > 0.5: final_score = min(0.99, final_score * 1.2)] *)
Definition boost (final_score : R) : R :=
  if Rlt_dec (1 / 2) final_score then
    let x := final_score * (12 / 10) in
    if Rlt_dec x (99 / 100) then x else 99 / 100
  else final_score.

(** [_fallback_stock_list] *)
Definition fallback_stock_list : list Stock :=
  map (fun s => {| sTicker := s ++ ".NS"; sName := s |})
    ["RELIANCE"; "TCS"; "INFY"; "HDFCBANK"; "ICICIBANK"; "LT"; "SBIN";
     "AXISBANK"; "ITC"; "HINDUNILVR";
     "NIFTYBEES"; "BANKBEES"; "GOLDBEES"; "LIQUIDBEES"; "SILVERBEES"].

(** [if symbol: stocks.append({'Ticker': f"{symbol}.NS",
     'Name': row.get('NAME OF COMPANY', symbol)})] over the CSV rows, each
    given by its [SYMBOL] and [NAME OF COMPANY] cells ([None] when the
    column is missing). *)
Definition csv_stocks (rows : list (option string * option string)) : list Stock :=
  flat_map (fun '(symbol, name) =>
    match symbol with
    | Some sym =>
        if String.eqb sym "" then []
        else [{| sTicker := sym ++ ".NS";
                 sName := match name with Some n => n | None => sym end |}]
    | None => []
    end) rows.

(** [stocks_list[:limit]] for an [int] limit (a negative one drops that
    many rows from the end). *)
Definition py_slice_to {A} (limit : Z) (l : list A) : list A :=
  if (0 <=? limit)%Z then firstn (Z.to_nat limit) l
  else firstn (length l - Z.to_nat (- limit)) l.

Section Run.
Variable weights : PWeights.
Variable draws : nat -> list (list nat).
(** [self.process_stock(row)]: the fetches it performs and its result. *)
Variable process_stock : Stock -> list Fetch * option Row.
(** [self.ingestor.fetch_stock_history(ticker)] as a list of closes. *)
Variable fetch_stock_history : string -> list R.
(** The order in which [as_completed] yields the submitted futures. *)
Variable as_completed : list Stock -> list Stock.
(** [config['top_n_stocks']] *)
Variable top_n_stocks : nat.
(** The outcome of [nse_eq_symbols()]: [None] when [nsepython] cannot be
    imported (no request is made), otherwise the symbols it returns or the
    exception it raises. *)
Variable nse_eq_symbols : option (result (list string)).
(** The outcome of [requests.get(EQUITY_L.csv)]: an exception, a status
    other than 200 ([None]), or the rows of the decoded CSV. *)
Variable equity_csv : result (option (list (option string * option string))).
(** The permutation [random.shuffle] applies. *)
Variable shuffle : list Stock -> list Stock.

(** [DataIngestor.get_nse_equity_list]: the fetches made and the universe.
    Saving the list to [equity_master.csv] is a local write and is
    not modelled. *)
Definition get_nse_equity_list : list Fetch * list Stock :=
  let '(log, from_nse) :=
    match nse_eq_symbols with
    | None => ([], None)
    | Some (Err _) => ([FetchSymbols], None)
    | Some (Ok symbols) =>
        ([FetchSymbols],
         if Nat.ltb 500 (length symbols)
         then Some (map (fun s => {| sTicker := s ++ ".NS"; sName := s |}) symbols)
         else None)
    end in
  match from_nse with
  | Some stocks => (log, stocks)
  | None =>
      let from_csv :=
        match equity_csv with
        | Ok (Some rows) =>
            let stocks := csv_stocks rows in
            if Nat.ltb 500 (length stocks) then Some stocks else None
        | _ => None
        end in
      (log ++ [FetchEquityCsv],
       match from_csv with Some stocks => stocks | None => fallback_stock_list end)
  end.

(** Step 1: the universe, shuffled, cut to [limit] when [limit] is truthy. *)
Definition select_stocks (limit : option Z) (universe : list Stock) : list Stock :=
  let stocks_list := shuffle universe in
  match limit with
  | Some n => if (n =? 0)%Z then stocks_list else py_slice_to n stocks_list
  | None => stocks_list
  end.

(** The entities a run considers. *)
Definition run_stocks (limit : option Z) : list Stock :=
  select_stocks limit (snd get_nse_equity_list).

(** [{row['Ticker'] for row in results if row.get('Ticker')}] *)
Definition processed_tickers (results : list Row) : list string :=
  map rTicker (List.filter (fun r => negb (String.eqb (rTicker r) "")) results).

Definition stocks_to_process (stocks_list : list Stock) (results : list Row)
    : list Stock :=
  List.filter (fun s => negb (bool_decide (sTicker s ∈ processed_tickers results)))
    stocks_list.

(** One completed future of the scan: [res = future.result()];
    [if res: results.append(res)]. *)
Definition scan_step (acc : list Fetch * list Row) (s : Stock)
    : list Fetch * list Row :=
  let '(log, results) := acc in
  let '(fetched, res) := process_stock s in
  (log ++ fetched, match res with Some r => results ++ [r] | None => results end).

(** Steps 1-2: resume from the rows already on disk and scan the others;
    returns the fetches made and the result set. *)
Definition scan (skip_fetch : bool) (stocks_list : list Stock) (prior : list Row)
    : list Fetch * list Row :=
  let todo := stocks_to_process stocks_list prior in
  if match todo with [] => true | _ => false end && negb skip_fetch
  then ([], prior)
  else fold_left scan_step (as_completed todo) ([], prior).

(** One iteration of step 4 on a top candidate, threading the shared
    forecaster; [updates] is the dict keyed by ticker. *)
Definition forecast_step (acc : list Fetch * Forecaster * gmap string (R * R))
    (row : Row) : list Fetch * Forecaster * gmap string (R * R) :=
  let '(log, fc, updates) := acc in
  let ticker := rTicker row in
  let hist := fetch_stock_history ticker in
  let '(forecast_score, fc') := get_forecast_score draws hist fc in
  let pre := Pre_Score row in
  let final_score :=
    boost (pre + (match w_forecast weights with Some w => w | None => 0 end)
                 * forecast_score) in
  (log ++ [FetchHistory ticker], fc',
   <[ticker := (forecast_score, final_score)]> updates).

(** Step 4: forecasting on the top candidates. *)
Definition forecast_pass (top : list Row) (fc : Forecaster)
    : list Fetch * Forecaster * gmap string (R * R) :=
  fold_left forecast_step top ([], fc, ∅).

(** Step 5: merging the updates back into the result set. *)
Definition merge (updates : gmap string (R * R)) (row : Row) : Row :=
  match updates !! rTicker row with
  | Some (fs, fin) => set_scores row fs fin
  | None => set_scores row (Forecast_Score row) (Pre_Score row)
  end.

(** Steps 2-5 of [run_full_analysis] on the selected entities, from the
    rows read from [full_analysis.csv] ([[]] when the file is absent or
    unreadable), with the engine's forecaster: returns the top
    [top_n_stocks] rows (the recommendations, before the allocation columns
    are added), the result set written back to [full_analysis.csv], the
    fetches made and the forecaster afterwards. *)
Definition analyze_stocks (skip_fetch skip_forecast : bool)
    (stocks_list : list Stock) (prior : list Row) (fc : Forecaster)
    : list Row * list Row * list Fetch * Forecaster :=
  let '(log1, results) := scan skip_fetch stocks_list prior in
  match results with
  | [] => ([], [], log1, fc)
  | _ :: _ =>
      let results := sort_desc Pre_Score results in
      let top_candidates := firstn 20 results in
      let '(log2, fc', results) :=
        if skip_forecast then ([], fc, results)
        else
          let '(log2, fc', updates) := forecast_pass top_candidates fc in
          (log2, fc', sort_desc Final_Score (map (merge updates) results)) in
      (firstn top_n_stocks results, results, log1 ++ log2, fc')
  end.

(** [RecommendationEngine.run_full_analysis(limit, skip_fetch,
    skip_forecast)]: step 1 fetches the universe, then steps 2-5 run on the
    selected entities; the fetch log starts with the universe fetches. *)
Definition run_full_analysis (limit : option Z) (skip_fetch skip_forecast : bool)
    (prior : list Row) (fc : Forecaster)
    : list Row * list Row * list Fetch * Forecaster :=
  let '(log0, universe) := get_nse_equity_list in
  let stocks_list := select_stocks limit universe in
  let '(recs, results, log, fc') :=
    analyze_stocks skip_fetch skip_forecast stocks_list prior fc in
  (recs, results, log0 ++ log, fc').

End Run.
End Pipeline.

(* ================================================================== *)
(** * Proofs *)

Module FundamentalsFacts.
Import Fundamentals.

Lemma Qlt_bool_iff x y : Qlt_bool x y = true <-> (x < y)%Q.
Proof.
  unfold Qlt_bool. rewrite negb_true_iff.
  split; intros H.
  - apply Qnot_le_lt. intros Hle. apply Qle_bool_iff in Hle. congruence.
  - destruct (Qle_bool y x) eqn:E; [|reflexivity].
    apply Qle_bool_iff in E. exfalso. apply (Qlt_not_le x y); assumption.
Qed.

(** The exact comparison with a square root agrees with the real one. *)
Lemma sqrt_lt_correct p x :
  (0 < x)%Q -> (Q2R p < sqrt (Q2R x))%R <-> Q_lt_sqrt p x = true.
Proof.
  intros Hx. unfold Q_lt_sqrt. rewrite orb_true_iff, !Qlt_bool_iff.
  assert (Hx' : (0 < Q2R x)%R) by (rewrite <- RMicromega.Q2R_0; now apply Qreals.Qlt_Rlt).
  split.
  - intros H. destruct (Qlt_le_dec p 0) as [Hp|Hp]; [now left|right].
    apply Qreals.Rlt_Qlt. rewrite Qreals.Q2R_mult.
    apply Qreals.Qle_Rle in Hp. rewrite RMicromega.Q2R_0 in Hp.
    rewrite <- (sqrt_sqrt (Q2R x)) by lra.
    apply Rmult_le_0_lt_compat; lra.
  - intros [H|H].
    + apply Qreals.Qlt_Rlt in H. rewrite RMicromega.Q2R_0 in H.
      pose proof (sqrt_pos (Q2R x)). lra.
    + destruct (Qlt_le_dec p 0) as [Hp|Hp].
      * apply Qreals.Qlt_Rlt in Hp. rewrite RMicromega.Q2R_0 in Hp.
        pose proof (sqrt_pos (Q2R x)). lra.
      * apply Qreals.Qlt_Rlt in H. rewrite Qreals.Q2R_mult in H.
        apply Qreals.Qle_Rle in Hp. rewrite RMicromega.Q2R_0 in Hp.
        rewrite <- (sqrt_Rsqr (Q2R p)) by lra.
        apply sqrt_lt_1_alt. unfold Rsqr. split; [nra|exact H].
Qed.

Lemma Qlt_bool_zero_l c q : (0 <= c)%Q -> Qeq_bool q 0 = true -> Qlt_bool c q = false.
Proof.
  intros Hc E. apply Qeq_bool_iff in E. unfold Qlt_bool.
  apply negb_false_iff, Qle_bool_iff. rewrite E. exact Hc.
Qed.

Lemma and_gt_num (info : pydict) k c :
  (0 <= c)%Q -> num_or_none (info !! k) ->
  and_gt (py_get info k (PNum 0)) c = Ok (num_gt (info !! k) c).
Proof.
  intros Hc Hk. unfold py_get, and_gt, num_gt.
  destruct (info !! k) as [[|q|s]|]; simpl in *; try contradiction; try reflexivity.
  destruct (Qeq_bool q 0) eqn:E; simpl; [|reflexivity].
  now rewrite Qlt_bool_zero_l.
Qed.

Lemma and_lt_num (info : pydict) k c :
  num_or_none (info !! k) ->
  (forall q, info !! k = Some (PNum q) -> ~ (q == 0)%Q) ->
  and_lt (py_get info k (PNum 0)) c = Ok (num_lt (info !! k) c).
Proof.
  intros Hk Hz. unfold py_get, and_lt, num_lt.
  destruct (info !! k) as [[|q|s]|]; simpl in *; try contradiction; try reflexivity.
  destruct (Qeq_bool q 0) eqn:E; [|reflexivity].
  apply Qeq_bool_iff in E. exfalso. exact (Hz q eq_refl E).
Qed.

Lemma py_gt_num (info : pydict) k :
  num_or_none (info !! k) -> info !! k <> Some PNone ->
  py_gt (py_get info k (PNum 0)) 0 = Ok (num_gt (info !! k) 0).
Proof.
  intros Hk Hn. unfold py_get, num_gt.
  destruct (info !! k) as [[|q|s]|]; simpl in *; try contradiction; reflexivity.
Qed.

Lemma run_checks_all_ok a b c d e :
  run_checks [Ok a; Ok b; Ok c; Ok d; Ok e] 0 =
  Nat.b2n a + Nat.b2n b + Nat.b2n c + Nat.b2n d + Nat.b2n e.
Proof. destruct a, b, c, d, e; reflexivity. Qed.

Lemma quality_tally_le (info : pydict) : (quality_tally info <= 5)%nat.
Proof.
  unfold quality_tally.
  destruct (num_gt _ 0), (num_gt _ 0), (num_gt _ 0), (num_gt _ 1), (num_lt _ 1);
    simpl; lia.
Qed.

(** C6 (counterexample): a snapshot whose only positive signal is the
    return on assets has tally 1; the scorer returns [int(1.8) = 1], not the
    rescaled tally [(1/5)*9 = 1.8]. *)
Lemma C6_counterexample :
  get_piotroski_score {[ "returnOnAssets" := PNum 1 ]} = 1%Z /\
  ~ (inject_Z (get_piotroski_score {[ "returnOnAssets" := PNum 1 ]}) == 1 / 5 * 9)%Q.
Proof. split; vm_compute; [reflexivity | discriminate]. Qed.

(** C6 (amended): for a snapshot whose five quality keys are absent, [None]
    or numbers, with [revenuePerShare] not [None] and [debtToEquity] not 0,
    the quality score awards one point each for return on assets > 0,
    operating cash flow > 0, revenue per share > 0, current ratio > 1 and
    debt/equity < 1, and returns [int((tally/5)*9)], the rescaled tally
    truncated toward zero, which is one of 0, 1, 3, 5, 7, 9. *)
Theorem get_piotroski_score_truncated (info : pydict)
  (Hnum : Forall (fun k => num_or_none (info !! k))
            ["returnOnAssets"; "operatingCashflow"; "revenuePerShare";
             "currentRatio"; "debtToEquity"])
  (Hrps : info !! "revenuePerShare" <> Some PNone)
  (Hde : forall q, info !! "debtToEquity" = Some (PNum q) -> ~ (q == 0)%Q) :
  get_piotroski_score info =
    Qfloor (inject_Z (Z.of_nat (quality_tally info)) / 5 * 9)%Q /\
  In (get_piotroski_score info) [0; 1; 3; 5; 7; 9]%Z.
Proof.
  repeat match goal with H : Forall _ (_ :: _) |- _ => inversion_clear H end.
  assert (E : get_piotroski_score info =
                Qfloor (inject_Z (Z.of_nat (quality_tally info)) / 5 * 9)%Q).
  { unfold get_piotroski_score, piotroski_checks, py_int_nonneg.
    rewrite !and_gt_num, and_lt_num, py_gt_num by (auto; discriminate).
    rewrite run_checks_all_ok. reflexivity. }
  split; [exact E|]. rewrite E.
  pose proof (quality_tally_le info) as Hle.
  destruct (quality_tally info) as [|[|[|[|[|[|n]]]]]]; try lia;
    vm_compute; tauto.
Qed.

(** A concrete snapshot the amended statement covers. *)
Lemma get_piotroski_score_truncated_witness :
  get_piotroski_score {[ "returnOnAssets" := PNum 1 ]} =
    Qfloor (inject_Z (Z.of_nat (quality_tally {[ "returnOnAssets" := PNum 1 ]})) / 5 * 9)%Q /\
  In (get_piotroski_score {[ "returnOnAssets" := PNum 1 ]}) [0; 1; 3; 5; 7; 9]%Z.
Proof.
  apply get_piotroski_score_truncated.
  - repeat constructor.
  - vm_compute. discriminate.
  - vm_compute. discriminate.
Defined.

(** A key holding no number reads as [None] or a [str] (default [None]) ... *)
Lemma get_none_nonusable (info : pydict) k :
  usable (info !! k) = false ->
  py_get info k PNone = PNone \/ exists s, py_get info k PNone = PStr s.
Proof.
  unfold py_get, usable. destruct (info !! k) as [[|q|s]|]; eauto; discriminate.
Qed.

(** ... or as [0], [None] or a [str] (default [0]). *)
Lemma get_zero_nonusable (info : pydict) k :
  usable (info !! k) = false ->
  py_get info k (PNum 0) = PNum 0 \/ py_get info k (PNum 0) = PNone \/
  exists s, py_get info k (PNum 0) = PStr s.
Proof.
  unfold py_get, usable. destruct (info !! k) as [[|q|s]|]; eauto; discriminate.
Qed.

(** Close [x = a \/ x = b] by evaluation, splitting on [str] truthiness. *)
Ltac solve_or :=
  simpl; repeat (destruct (negb (_ =? _)%string); simpl);
  first [left; reflexivity | right; reflexivity].

Lemma graham_nonusable (info : pydict) :
  usable (info !! "trailingEps") = false -> usable (info !! "bookValue") = false ->
  calculate_graham_number info = Ok GZero \/
  calculate_graham_number info = Err TypeError.
Proof.
  intros He Hb. unfold calculate_graham_number.
  destruct (get_none_nonusable info _ He) as [-> | [s ->]]; [now left|].
  destruct (get_none_nonusable info _ Hb) as [-> | [t ->]]; solve_or.
Qed.

(** Every check of the quality score fails or raises. *)
Definition check_zero (r : result bool) : Prop := r = Ok false \/ r = Err TypeError.

Lemma run_checks_zero l :
  Forall check_zero l -> run_checks l 0 = 0%nat.
Proof.
  induction 1 as [|r l [-> | ->] _ IH]; simpl; auto.
Qed.

Lemma and_gt_zero (info : pydict) k c :
  (0 <= c)%Q -> usable (info !! k) = false ->
  check_zero (and_gt (py_get info k (PNum 0)) c).
Proof.
  intros Hc H. unfold check_zero, and_gt.
  destruct (get_zero_nonusable info k H) as [-> | [-> | [s ->]]]; solve_or.
Qed.

Lemma and_lt_zero (info : pydict) k c :
  usable (info !! k) = false ->
  check_zero (and_lt (py_get info k (PNum 0)) c).
Proof.
  intros H. unfold check_zero, and_lt.
  destruct (get_zero_nonusable info k H) as [-> | [-> | [s ->]]]; solve_or.
Qed.

Lemma py_gt_zero (info : pydict) k :
  usable (info !! k) = false -> check_zero (py_gt (py_get info k (PNum 0)) 0).
Proof.
  intros H. unfold check_zero.
  destruct (get_zero_nonusable info k H) as [-> | [-> | [s ->]]]; solve_or.
Qed.

Lemma piotroski_nonusable (info : pydict) :
  (forall k, In k score_keys -> usable (info !! k) = false) ->
  get_piotroski_score info = 0%Z.
Proof.
  intros H. unfold get_piotroski_score.
  rewrite run_checks_zero; [reflexivity|].
  unfold piotroski_checks.
  apply List.Forall_cons; [apply and_gt_zero; [discriminate | apply H; simpl; tauto]|].
  apply List.Forall_cons; [apply and_gt_zero; [discriminate | apply H; simpl; tauto]|].
  apply List.Forall_cons; [apply py_gt_zero; apply H; simpl; tauto|].
  apply List.Forall_cons; [apply and_gt_zero; [discriminate | apply H; simpl; tauto]|].
  apply List.Forall_cons; [apply and_lt_zero; apply H; simpl; tauto|].
  apply List.Forall_nil.
Qed.

(** Finish a case of [score_fundamental] once every read key is fixed. *)
Ltac finish_fund :=
  simpl; repeat (destruct (negb (_ =? _)%string); simpl);
  first [ right; reflexivity
        | left; eexists; split; [reflexivity | vm_compute; reflexivity] ].

(** In a snapshot whose read keys are absent or [None], every key read with
    default [None] reads as [None]. *)
Lemma get_none_absent_or_none (info : pydict) k :
  usable (info !! k) = false -> num_or_none (info !! k) -> py_get info k PNone = PNone.
Proof.
  unfold py_get, usable, num_or_none. destruct (info !! k) as [[|q|s]|]; try reflexivity;
    intros; try discriminate; contradiction.
Qed.

(** [process_stock]'s handler: a raising [score_fundamental] gives 0. *)
Lemma fund_score_of_eq (info : pydict) :
  Strategy.fund_score_of info =
    match score_fundamental info with Ok v => v | Err _ => 0%Q end.
Proof.
  unfold Strategy.fund_score_of.
  assert (Hg : Strategy.getattr_analyzer "score_fundamental" = Ok tt) by (vm_compute; reflexivity).
  rewrite Hg. reflexivity.
Qed.

(** C8: with no usable key (no key the scorer reads holds a number), the
    fundamental score [process_stock] uses is exactly 0, and
    [score_fundamental] itself returns 0 or raises [TypeError].  When the
    read keys are absent or [None] (the empty snapshot included), it returns
    exactly 0 unless [trailingEps] is [None]: then the unguarded
    [info.get('trailingEps', 0) < 0] compares [None < 0] and raises. *)
Theorem score_fundamental_no_usable_keys (info : pydict)
  (H : forall k, In k score_keys -> usable (info !! k) = false) :
  (Strategy.fund_score_of info == 0)%Q /\
  ((exists q, score_fundamental info = Ok q /\ q == 0) \/
   score_fundamental info = Err TypeError) /\
  ((forall k, In k score_keys -> num_or_none (info !! k)) ->
   (info !! "trailingEps" <> Some PNone ->
      exists q, score_fundamental info = Ok q /\ q == 0) /\
   (info !! "trailingEps" = Some PNone ->
      score_fundamental info = Err TypeError)).
Proof.
  assert (Hgen : (exists q, score_fundamental info = Ok q /\ q == 0) \/
                 score_fundamental info = Err TypeError).
  { unfold score_fundamental.
    destruct (decide (info = ∅)) as [_|Hne].
    { left. exists 0%Q; split; reflexivity. }
    rewrite (piotroski_nonusable info H).
    destruct (graham_nonusable info (H "trailingEps" ltac:(simpl; tauto))
                (H "bookValue" ltac:(simpl; tauto)))
      as [-> | ->]; [| right; reflexivity].
    cbn [rbind graham_truthy andb].
    destruct (get_none_nonusable info "trailingPE" (H "trailingPE" ltac:(simpl; tauto))) as [-> | [s1 ->]];
    destruct (get_zero_nonusable info "trailingEps" (H "trailingEps" ltac:(simpl; tauto))) as [-> | [-> | [s2 ->]]];
    destruct (get_none_nonusable info "pegRatio" (H "pegRatio" ltac:(simpl; tauto))) as [-> | [s3 ->]];
    destruct (get_none_nonusable info "returnOnEquity" (H "returnOnEquity" ltac:(simpl; tauto))) as [-> | [s4 ->]];
    destruct (get_none_nonusable info "debtToEquity" (H "debtToEquity" ltac:(simpl; tauto))) as [-> | [s5 ->]];
    finish_fund. }
  split; [|split; [exact Hgen|]].
  { rewrite fund_score_of_eq.
    destruct Hgen as [[q [-> Hq]] | ->]; [exact Hq | reflexivity]. }
  intros Hnn.
  assert (Hk : forall k, In k score_keys -> py_get info k PNone = PNone).
  { intros k Hin. apply get_none_absent_or_none; auto. }
  unfold score_fundamental.
  destruct (decide (info = ∅)) as [->|Hne].
  { split; [intros _; exists 0%Q; split; reflexivity|].
    rewrite lookup_empty. discriminate. }
  rewrite (piotroski_nonusable info H).
  unfold calculate_graham_number.
  rewrite !(Hk "trailingEps"), (Hk "bookValue"), (Hk "trailingPE"), (Hk "pegRatio"),
    (Hk "returnOnEquity"), (Hk "debtToEquity") by (simpl; tauto).
  split.
  - intros Hte.
    assert (Hte' : info !! "trailingEps" = None).
    { specialize (Hnn "trailingEps" ltac:(simpl; tauto)).
      pose proof (H "trailingEps" ltac:(simpl; tauto)) as Hu.
      unfold num_or_none, usable in *.
      destruct (info !! "trailingEps") as [[|q|s]|]; try contradiction; try discriminate;
        reflexivity. }
    assert (Hz : py_get info "trailingEps" (PNum 0) = PNum 0)
      by (unfold py_get; rewrite Hte'; reflexivity).
    rewrite Hz. eexists; split; [reflexivity | vm_compute; reflexivity].
  - intros Hte.
    assert (Hz : py_get info "trailingEps" (PNum 0) = PNone)
      by (unfold py_get; rewrite Hte; reflexivity).
    rewrite Hz. reflexivity.
Qed.

(** [trailingEps = None]: no usable key; the handler's score is 0 and the
    scorer raises. *)
Lemma score_fundamental_no_usable_keys_witness :
  (Strategy.fund_score_of {[ "trailingEps" := PNone ]} == 0)%Q /\
  ((exists q, score_fundamental {[ "trailingEps" := PNone ]} = Ok q /\ q == 0) \/
   score_fundamental {[ "trailingEps" := PNone ]} = Err TypeError) /\
  ((forall k, In k score_keys -> num_or_none (({[ "trailingEps" := PNone ]} : pydict) !! k)) ->
   ((({[ "trailingEps" := PNone ]} : pydict) !! "trailingEps") <> Some PNone ->
      exists q, score_fundamental {[ "trailingEps" := PNone ]} = Ok q /\ q == 0) /\
   ((({[ "trailingEps" := PNone ]} : pydict) !! "trailingEps") = Some PNone ->
      score_fundamental {[ "trailingEps" := PNone ]} = Err TypeError)).
Proof.
  apply score_fundamental_no_usable_keys.
  intros k Hk. simpl in Hk.
  repeat (destruct Hk as [<- | Hk]; [vm_compute; reflexivity|]). destruct Hk.
Defined.

(** C8 (failing input): the snapshot [{"trailingEps": None}] has no usable
    key, yet [score_fundamental] raises [TypeError] ([None < 0]) instead of
    returning 0; [process_stock]'s handler turns the raise into 0. *)
Lemma C8_counterexample :
  (forall k, In k score_keys ->
     usable (({[ "trailingEps" := PNone ]} : pydict) !! k) = false) /\
  score_fundamental {[ "trailingEps" := PNone ]} = Err TypeError /\
  Strategy.fund_score_of {[ "trailingEps" := PNone ]} = 0%Q.
Proof.
  split; [|split; vm_compute; reflexivity].
  intros k Hk. simpl in Hk.
  repeat (destruct Hk as [<- | Hk]; [vm_compute; reflexivity|]). destruct Hk.
Qed.

End FundamentalsFacts.

Module TechnicalsFacts.
Import Technicals.

Lemma technical_checks_five r : snd (technical_points_checks r) = 5%Z.
Proof. reflexivity. Qed.

Lemma nth_map_seq {A} (g : nat -> A) n i d :
  (i < n)%nat -> nth i (map g (seq 0 n)) d = g i.
Proof.
  intros Hi. rewrite (nth_indep _ d (g 0%nat)) by (rewrite length_map, length_seq; lia).
  rewrite map_nth, seq_nth by lia. reflexivity.
Qed.

Lemma last_map_seq {A} (g : nat -> A) n :
  (0 < n)%nat -> last (map g (seq 0 n)) = Some (g (n - 1)%nat).
Proof.
  intros Hn. destruct n as [|m]; [lia|].
  rewrite seq_S, map_app. simpl. rewrite last_snoc. f_equal. f_equal. lia.
Qed.

(** Under 200 closes the last row has no [SMA_200]. *)
Lemma sma_200_last_none (closes : list Q) :
  (0 < length closes <= 199)%nat ->
  nth (length closes - 1) (calculate_sma closes 200) None = None.
Proof.
  intros Hn. unfold calculate_sma.
  rewrite nth_map_seq by lia.
  replace (Nat.ltb (length closes - 1) (200 - 1)) with true; [reflexivity|].
  symmetry. apply Nat.ltb_lt. lia.
Qed.

Lemma points_without_sma200 r :
  t_SMA_200 r = None -> (fst (technical_points_checks r) <= 3)%Z.
Proof.
  intros H. unfold technical_points_checks. rewrite H. cbn zeta.
  rewrite !andb_false_r. cbn [otruthy andb].
  repeat match goal with |- context [if ?b then _ else _] => destruct b end;
    simpl; lia.
Qed.

Lemma points_range r : (0 <= fst (technical_points_checks r) <= 5)%Z.
Proof.
  unfold technical_points_checks. cbn zeta.
  repeat match goal with |- context [if ?b then _ else _] => destruct b end;
    simpl; lia.
Qed.

(** C10: for every enriched history, [get_technical_score] divides the
    points of the last row by exactly 5, whichever indicators are defined;
    for every history of 50 to 199 rows, [calculate_technicals] enriches
    it, [SMA_200] is absent on the last row, and the technical score is at
    most 3/5. *)
Theorem technical_score_over_five :
  (forall (rows : list TechRow) r, last rows = Some r ->
     snd (technical_points_checks r) = 5%Z /\
     get_technical_score rows = (inject_Z (fst (technical_points_checks r)) / 5)%Q) /\
  (forall history : list PricePoint, (50 <= length history <= 199)%nat ->
     exists rows, calculate_technicals history = Some rows /\
       (get_technical_score rows <= 3 # 5)%Q).
Proof.
  split.
  - intros rows r Hr. split; [apply technical_checks_five|].
    unfold get_technical_score. rewrite Hr.
    destruct (technical_points_checks r) as [s c] eqn:E.
    pose proof (technical_checks_five r) as H5. rewrite E in H5. simpl in H5. subst c.
    reflexivity.
  - intros history Hlen. unfold calculate_technicals.
    replace (Nat.ltb (length history) 50) with false
      by (symmetry; apply Nat.ltb_ge; lia).
    eexists; split; [reflexivity|].
    unfold get_technical_score. rewrite last_map_seq by lia.
    set (r := {| t_Close := _ |}).
    assert (Hs : t_SMA_200 r = None).
    { unfold r; simpl.
      pose proof (sma_200_last_none (map Close history)) as Hn.
      rewrite length_map in Hn. apply Hn. lia. }
    pose proof (points_without_sma200 r Hs) as H3.
    pose proof (points_range r) as H05.
    destruct (technical_points_checks r) as [s c] eqn:E.
    pose proof (technical_checks_five r) as H5. rewrite E in H5. simpl in H5, H3, H05. subst c.
    simpl. unfold Qle, Qdiv, Qmult, Qinv; simpl. lia.
Qed.

(** Applies the theorem to a 60-row history. *)
Lemma technical_score_over_five_witness :
  (50 <= length (repeat {| Close := 100 |} 60) <= 199)%nat /\
  exists rows, calculate_technicals (repeat {| Close := 100 |} 60) = Some rows /\
    (get_technical_score rows <= 3 # 5)%Q.
Proof.
  assert (H : (50 <= length (repeat {| Close := 100 |} 60) <= 199)%nat)
    by (rewrite repeat_length; lia).
  split; [exact H|].
  exact (proj2 technical_score_over_five _ H).
Defined.

End TechnicalsFacts.

Module StrategyFacts.
Import Fundamentals Technicals Strategy.

Lemma getattr_intrinsic_missing :
  getattr_analyzer "calculate_intrinsic_value" = Err AttributeError.
Proof. vm_compute. reflexivity. Qed.

Lemma getattr_defined name :
  name ∈ analyzer_methods -> getattr_analyzer name = Ok tt.
Proof. intros H. unfold getattr_analyzer. now rewrite decide_True. Qed.

(** C1: whatever the fetches return (or raise), and whatever a method
    [calculate_intrinsic_value] would compute, [process_stock] returns
    [None] on every row: the lookup of [calculate_intrinsic_value] on the
    [Analyzer] instance raises [AttributeError], which the per-entity
    handler turns into [None]; no scored entity is produced. *)
Theorem process_stock_always_none
  history_period weights fetch_stock_history fetch_fundamentals fetch_news
  polarity_compound investment_thesis calculate_intrinsic_value (row : pydict) :
  process_stock history_period weights fetch_stock_history fetch_fundamentals
    fetch_news polarity_compound investment_thesis calculate_intrinsic_value row = None.
Proof.
  unfold process_stock.
  destruct (fetch_stock_history _ _) as [hist|]; [|reflexivity]. cbn [rbind].
  destruct (fetch_fundamentals _) as [funds|]; [|reflexivity]. cbn [rbind].
  destruct (fetch_news _) as [news|]; [|reflexivity]. cbn [rbind].
  destruct hist as [|p hist]; [reflexivity|].
  rewrite (getattr_defined "calculate_technicals") by (simpl; set_solver).
  cbn [rbind].
  destruct (calculate_technicals (p :: hist)) as [[|r rows]|]; [reflexivity| |reflexivity].
  rewrite (getattr_defined "get_technical_score") by (simpl; set_solver).
  rewrite (getattr_defined "analyze_sentiment") by (simpl; set_solver).
  rewrite getattr_intrinsic_missing. reflexivity.
Qed.

End StrategyFacts.

Module MediumTermFacts.
Import MediumTerm.
Local Open Scope Q_scope.

Lemma incr_eq (c : bool) (pts score : nat) :
  incr c pts score = (score + if c then pts else 0)%nat.
Proof. unfold incr; destruct c; lia. Qed.

(** Name every [if c then p else 0] term and record that it is at most [p]. *)
Ltac bound_bits :=
  repeat match goal with
  | |- context [if ?b then ?p else 0%nat] =>
      let x := fresh "bit" in
      assert ((if b then p else 0) <= p)%nat by (destruct b; lia);
      set (x := if b then p else 0%nat) in *
  end.

(** A row on which every check of both tallies passes. *)
Definition all_pass_row : BigBetsRow :=
  {| ROCE := Some 20; ROE := Some 20; OPM := Some 20; FreeCashFlow := Some 1;
     DebtToEquity := Some 0; InterestCoverage := Some 10;
     PromoterHolding := Some 60; PromoterHoldingChange3Y := Some 1;
     SalesGrowth3Y := Some 20; ProfitGrowth3Y := Some 20;
     QtrSalesGrowth := Some 20; QtrProfitGrowth := Some 20;
     CMP := Some 100; DMA_200 := Some 50; RSI := Some 50 |}.

(** C7 (counterexample): on that row ROI_6to12_Score is 14, outside 0-13. *)
Lemma C7_counterexample :
  roi_6to12_score all_pass_row = 14%nat /\ quality_score all_pass_row = 11%nat.
Proof. split; vm_compute; reflexivity. Qed.

(** C7 (amended): for every row, QualityScore lies in 0-11 and
    ROI_6to12_Score in 0-14; the quarterly profit growth trigger
    (> 15) adds 2 points to the ROI tally, every other check 1. *)
Theorem big_bets_score_ranges (row : BigBetsRow) :
  (quality_score row <= 11)%nat /\ (roi_6to12_score row <= 14)%nat /\
  roi_6to12_score row =
    (roi_6to12_score {| ROCE := ROCE row; ROE := ROE row; OPM := OPM row;
        FreeCashFlow := FreeCashFlow row; DebtToEquity := DebtToEquity row;
        InterestCoverage := InterestCoverage row;
        PromoterHolding := PromoterHolding row;
        PromoterHoldingChange3Y := PromoterHoldingChange3Y row;
        SalesGrowth3Y := SalesGrowth3Y row; ProfitGrowth3Y := ProfitGrowth3Y row;
        QtrSalesGrowth := QtrSalesGrowth row; QtrProfitGrowth := None;
        CMP := CMP row; DMA_200 := DMA_200 row; RSI := RSI row |} +
     (if Qlt_bool 15 (get (QtrProfitGrowth row) 0) then 2 else 0))%nat.
Proof.
  unfold quality_score, roi_6to12_score; rewrite !incr_eq.
  cbn [ROCE ROE OPM FreeCashFlow DebtToEquity InterestCoverage PromoterHolding
       PromoterHoldingChange3Y SalesGrowth3Y ProfitGrowth3Y QtrSalesGrowth
       QtrProfitGrowth CMP DMA_200 RSI].
  replace (Qlt_bool 15 (get None 0)) with false by reflexivity.
  bound_bits; lia.
Qed.

End MediumTermFacts.

Module PortfolioFacts.
Import PortfolioManager.

(** A ledger over two dates; at the last one A, B, C are held and E only
    entered, and today's list is D, B, C. *)
Definition mk_entry (dt tick nm act : string) (px : Q) : Entry :=
  {| Date := dt; Ticker := tick; Name := nm; Action := act; Rank := 1%Z;
     Price := px; Score := 1#2 |}.

Definition ledger_ex : list Entry :=
  [mk_entry "2024-01-01" "A" "Alpha" "NEW_ENTRY" 9;
   mk_entry "2024-01-02" "A" "Alpha Ltd" "HOLD" 10;
   mk_entry "2024-01-02" "B" "Beta" "HOLD" 20;
   mk_entry "2024-01-02" "C" "Gamma" "HOLD" 30;
   mk_entry "2024-01-02" "E" "Epsilon" "NEW_ENTRY" 40].

Definition today_ex : list RecRow :=
  [{| r_index := Some 0%Z; r_Ticker := "D"; r_Name := "Delta"; r_Close := 50; r_Final_Score := 1#2 |};
   {| r_index := Some 1%Z; r_Ticker := "B"; r_Name := "Beta"; r_Close := 21; r_Final_Score := 1#2 |};
   {| r_index := Some 2%Z; r_Ticker := "C"; r_Name := "Gamma"; r_Close := 31; r_Final_Score := 1#2 |}].

Lemma held_set_ex : held_set ledger_ex = ["A"; "B"; "C"].
Proof. vm_compute. reflexivity. Qed.

Lemma dropouts_filter today history ld cur ticks :
  dropouts today history ld cur ticks =
  dropouts today history ld cur (filter (fun t => t ∉ cur) ticks).
Proof.
  induction ticks as [|t ticks IH]; [reflexivity|].
  rewrite filter_cons. simpl.
  case_bool_decide as Hin; case_decide; try contradiction.
  - exact IH.
  - simpl. rewrite bool_decide_false by assumption. rewrite IH. reflexivity.
Qed.

Lemma held_first_row history ld t :
  last_date history = Some ld -> t ∈ held_set history ->
  exists pa, first_row history ld t = Ok pa /\ Date pa = ld /\ Ticker pa = t.
Proof.
  unfold held_set, first_row. intros -> Ht.
  apply elem_of_remove_dups, list_elem_of_In, in_map_iff in Ht as (e & <- & He).
  apply filter_In in He as [He Hc]. apply andb_prop in Hc as [Hd _].
  apply String.eqb_eq in Hd.
  destruct (List.filter _ _) as [|pa rest] eqn:Hf.
  - exfalso. assert (In e []) as []. rewrite <- Hf. apply filter_In. split; [exact He|].
    rewrite Hd, !String.eqb_refl. reflexivity.
  - exists pa. split; [reflexivity|].
    assert (In pa (pa :: rest)) as Hp by now left. rewrite <- Hf in Hp.
    apply filter_In in Hp as [_ Hp]. apply andb_prop in Hp as [H1 H2].
    apply String.eqb_eq in H1, H2. auto.
Qed.

(** C9: with a ledger whose last date holds HOLD rows for exactly the
    tickers a, b, c, and today's recommendations for b, c, d (in any
    order), [update_portfolio] emits one record per ticker: a DROPOUT
    carrying the name and price of a's first row at the last date, b and c
    HOLD, d NEW_ENTRY; no ticker twice; and the ledger becomes the old one
    with these records appended.  This holds for every iteration order of
    the held set. *)
Theorem update_portfolio_diff (iter_order : list string -> list string)
    (Hord : forall l, iter_order l ≡ₚ l)
    (today : string) (history : list Entry) (current : list RecRow)
    (a b c d : string) :
  NoDup [a; b; c; d] ->
  (forall t, t ∈ held_set history <-> t = a \/ t = b \/ t = c) ->
  map r_Ticker current ≡ₚ [b; c; d] ->
  exists new_entries ld pa,
    update_portfolio iter_order today history current
      = Ok (new_entries, history ++ new_entries) /\
    map (fun e => (Ticker e, Action e)) new_entries
      ≡ₚ [(a, "DROPOUT"); (b, "HOLD"); (c, "HOLD"); (d, "NEW_ENTRY")] /\
    NoDup (map Ticker new_entries) /\
    last_date history = Some ld /\ first_row history ld a = Ok pa /\
    forall e, e ∈ new_entries -> Ticker e = a ->
      Date e = today /\ Name e = Name pa /\ Price e = Price pa.
Proof.
  intros Hnd Hheld Hcur.
  assert (Hneq : a <> b /\ a <> c /\ a <> d /\ b <> c /\ b <> d /\ c <> d).
  { rewrite !NoDup_cons in Hnd. set_solver. }
  destruct (last_date history) as [ld|] eqn:Hld.
  2:{ exfalso. assert (a ∈ held_set history) as H by (apply Hheld; auto).
      unfold held_set in H. rewrite Hld in H. apply not_elem_of_nil in H. exact H. }
  destruct (held_first_row history ld a Hld) as (pa & Hpa & _); [apply Hheld; auto|].
  set (prev := iter_order (held_set history)).
  assert (Hprev : forall t, t ∈ prev <-> t = a \/ t = b \/ t = c).
  { intros t. unfold prev. rewrite (Hord _). apply Hheld. }
  assert (Hcurm : forall t, t ∈ map r_Ticker current <-> t = b \/ t = c \/ t = d).
  { intros t. rewrite Hcur. set_solver. }
  assert (Hdrop : filter (fun t => t ∉ map r_Ticker current) prev = [a]).
  { apply Permutation_length_1_inv.
    apply NoDup_Permutation.
    - apply NoDup_singleton.
    - apply NoDup_filter. unfold prev. rewrite (Hord _). unfold held_set; rewrite Hld; apply NoDup_remove_dups.
    - intros t. rewrite list_elem_of_singleton, list_elem_of_filter, Hprev, Hcurm.
      split; [intros ->; split; [|left]; intuition congruence|].
      intros [Hn Ht]. intuition. }
  exists (map (entry_of_row today prev) current ++
     [{| Date := today; Ticker := a; Name := Name pa; Action := "DROPOUT";
         Rank := (-1)%Z; Price := Price pa; Score := 0 |}]), ld, pa.
  assert (Hpairs : map (fun e => (Ticker e, Action e))
      (map (entry_of_row today prev) current)
      ≡ₚ [(b, "HOLD"); (c, "HOLD"); (d, "NEW_ENTRY")]).
  { transitivity (map (fun t => (t, if bool_decide (t ∈ prev) then "HOLD" else "NEW_ENTRY"))
                   (map r_Ticker current)).
    { rewrite !map_map. reflexivity. }
    rewrite Hcur. simpl.
    rewrite (bool_decide_true (b ∈ prev)) by (apply Hprev; auto).
    rewrite (bool_decide_true (c ∈ prev)) by (apply Hprev; auto).
    rewrite (bool_decide_false (d ∈ prev)) by (rewrite Hprev; intuition congruence).
    reflexivity. }
  split.
  { unfold update_portfolio. fold prev. rewrite Hld. cbn zeta.
    rewrite dropouts_filter, Hdrop. simpl.
    rewrite bool_decide_false by (rewrite Hcurm; intuition congruence).
    rewrite Hpa. reflexivity. }
  assert (Hall : map (fun e => (Ticker e, Action e))
      (map (entry_of_row today prev) current ++
       [{| Date := today; Ticker := a; Name := Name pa; Action := "DROPOUT";
           Rank := (-1)%Z; Price := Price pa; Score := 0 |}])
      ≡ₚ [(a, "DROPOUT"); (b, "HOLD"); (c, "HOLD"); (d, "NEW_ENTRY")]).
  { rewrite map_app, Hpairs. symmetry. apply Permutation_cons_append. }
  split; [exact Hall|].
  split.
  { assert (Ht : map Ticker (map (entry_of_row today prev) current ++
       [{| Date := today; Ticker := a; Name := Name pa; Action := "DROPOUT";
           Rank := (-1)%Z; Price := Price pa; Score := 0 |}])
      = map fst (map (fun e => (Ticker e, Action e))
       (map (entry_of_row today prev) current ++
       [{| Date := today; Ticker := a; Name := Name pa; Action := "DROPOUT";
           Rank := (-1)%Z; Price := Price pa; Score := 0 |}]))).
    { rewrite map_map. reflexivity. }
    rewrite Ht, Hall. exact Hnd. }
  split; [reflexivity|]. split; [exact Hpa|].
  intros e He Hea. apply elem_of_app in He as [He|He].
  - exfalso. apply list_elem_of_fmap in He as (r & -> & Hr).
    simpl in Hea. assert (a ∈ map r_Ticker current) as Ham.
    { rewrite <- Hea. apply list_elem_of_fmap. eauto. }
    apply Hcurm in Ham. intuition congruence.
  - apply list_elem_of_singleton in He. subst e. auto.
Qed.

Lemma update_portfolio_diff_witness :
  exists new_entries ld pa,
    update_portfolio (fun l => l) "2024-01-03" ledger_ex today_ex
      = Ok (new_entries, ledger_ex ++ new_entries) /\
    map (fun e => (Ticker e, Action e)) new_entries
      ≡ₚ [("A", "DROPOUT"); ("B", "HOLD"); ("C", "HOLD"); ("D", "NEW_ENTRY")] /\
    NoDup (map Ticker new_entries) /\
    last_date ledger_ex = Some ld /\ first_row ledger_ex ld "A" = Ok pa /\
    forall e, e ∈ new_entries -> Ticker e = "A" ->
      Date e = "2024-01-03" /\ Name e = Name pa /\ Price e = Price pa.
Proof.
  apply (update_portfolio_diff (fun l => l) (fun l => Permutation_refl l)).
  - apply NoDup_ListNoDup. repeat constructor; simpl; intuition discriminate.
  - intros t. rewrite held_set_ex. set_solver.
  - exact (Permutation_cons_append ["B"; "C"] "D").
Defined.

End PortfolioFacts.

Module ForecastFacts.
Import Forecast.
Local Open Scope R_scope.

Lemma Rsum_repeat (c : R) (k : nat) : Rsum (repeat c k) = INR k * c.
Proof. induction k as [|k IH]; cbn [repeat Rsum]; [simpl; lra|]. rewrite IH, S_INR. lra. Qed.

Lemma Rmean_repeat (c : R) (k : nat) : (0 < k)%nat -> Rmean (repeat c k) = c.
Proof.
  intros Hk. unfold Rmean. rewrite Rsum_repeat, repeat_length.
  assert (INR k <> 0) by (apply not_0_INR; lia). field. assumption.
Qed.

Lemma map_const {A B} (f : A -> B) (c : B) (l : list A) :
  (forall x, In x l -> f x = c) -> map f l = repeat c (length l).
Proof.
  induction l as [|x l IH]; intros H; [reflexivity|].
  simpl. rewrite H by (left; reflexivity). f_equal. apply IH. intros; apply H; right; assumption.
Qed.

Lemma nth_repeat_lt (c d : R) (n i : nat) : (i < n)%nat -> nth i (repeat c n) d = c.
Proof.
  revert i; induction n as [|n IH]; intros [|i] Hi; simpl; try lia; auto.
  apply IH; lia.
Qed.

(** With all targets of the node equal to [c], a tree is the leaf [c]. *)
Lemma grow_const (c : R) d X y nf idx :
  idx <> [] -> (forall i, In i idx -> nth i y 0 = c) -> grow d X y nf idx = Leaf c.
Proof.
  intros Hne Hy.
  assert (Hys : map (fun i => nth i y 0) idx = repeat c (length idx)) by (apply map_const; exact Hy).
  assert (Hlen : (0 < length idx)%nat) by (destruct idx; [congruence|simpl; lia]).
  destruct d as [|d]; simpl grow; rewrite Hys, (Rmean_repeat c _ Hlen); [reflexivity|].
  destruct (Nat.ltb (length idx) 2); [reflexivity|].
  rewrite (map_const _ 0 (repeat c (length idx))) by
    (intros v Hv; apply repeat_spec in Hv; subst v; simpl; ring).
  rewrite Rsum_repeat. destruct (Rle_dec _ 0) as [_|Hn]; [reflexivity|].
  exfalso. apply Hn. lra.
Qed.

Lemma fit_const draws (c : R) X y :
  (forall dr, In dr (draws (length X)) ->
     dr <> [] /\ forall i, In i dr -> nth i y 0 = c) ->
  forall t, In t (estimators (fit draws X y)) -> t = Leaf c.
Proof.
  intros Hd t Ht. unfold fit in Ht. cbn [estimators] in Ht. apply in_map_iff in Ht as (dr & <- & Hdr).
  destruct (Hd dr Hdr) as [Hne Hy]. apply grow_const; assumption.
Qed.

Lemma forest_predict_const (m : Forest) (c : R) (x : list R) :
  estimators m <> [] -> (forall t, In t (estimators m) -> t = Leaf c) ->
  length x = n_features_in m -> forest_predict m x = Ok c.
Proof.
  intros Hne Ht Hx. unfold forest_predict. rewrite Hx, Nat.eqb_refl.
  rewrite (map_const _ c) by (intros t Hin; rewrite (Ht t Hin); reflexivity).
  rewrite Rmean_repeat; [reflexivity|]. destruct (estimators m); [congruence|simpl; lia].
Qed.

Lemma extract_features_ok (w : list R) :
  w <> [] -> exists feats, extract_features w = Ok feats /\
    length feats = (length w + 2)%nat.
Proof.
  destruct w as [|w0 w]; [congruence|]. intros _. eexists; split; [reflexivity|].
  rewrite length_app. reflexivity.
Qed.

(** A model predicting [c] on every row of its width predicts [c] on every
    day of the recursive loop. *)
Lemma predict_loop_const (m : Forest) (c : R) days (w : list R) :
  estimators m <> [] -> (forall t, In t (estimators m) -> t = Leaf c) ->
  w <> [] -> n_features_in m = (length w + 2)%nat ->
  predict_loop m days w = Ok (repeat c days).
Proof.
  intros Hne Ht. revert w. induction days as [|days IH]; intros w Hw Hnf; [reflexivity|].
  simpl. destruct (extract_features_ok w Hw) as (feats & -> & Hlen). cbn [rbind].
  rewrite (forest_predict_const m c feats Hne Ht) by lia. cbn [rbind].
  destruct w as [|w0 w]; [congruence|]. cbn [roll_set rbind].
  rewrite IH; [reflexivity| |].
  - destruct w; discriminate.
  - rewrite Hnf, length_app. simpl. lia.
Qed.

Lemma result_mapM_ok {A B} (f : A -> result B) (P : B -> Prop) (l : list A) :
  (forall x, In x l -> exists b, f x = Ok b /\ P b) ->
  exists bs, result_mapM f l = Ok bs /\ length bs = length l /\ Forall P bs.
Proof.
  induction l as [|x l IH]; intros H; [exists []; split; [reflexivity|split; [reflexivity|constructor]]|].
  destruct (H x (or_introl eq_refl)) as (b & Hb & Pb).
  destruct IH as (bs & Hbs & Hl & HP); [intros; apply H; right; assumption|].
  exists (b :: bs). simpl. rewrite Hb, Hbs. simpl. auto.
Qed.

(** On a history of at least [lb + 5] points ([lb >= 1]) data preparation
    succeeds with one row of width [lb + 2] per point past the first [lb]. *)
Lemma prepare_data_ok (lb : nat) (closes : list R) :
  (1 <= lb)%nat -> (lb + 5 <= length closes)%nat ->
  exists X, prepare_data lb closes =
      Some (X, map (fun i => nth (i + lb) closes 0) (seq 0 (length closes - lb))) /\
    length X = (length closes - lb)%nat /\
    Forall (fun row => length row = (lb + 2)%nat) X.
Proof.
  intros Hlb Hlen. unfold prepare_data.
  destruct (Nat.ltb_spec (length closes) (lb + 5)) as [Hc|_]; [lia|].
  destruct (result_mapM_ok (fun i => extract_features (firstn lb (skipn i closes)))
              (fun row => length row = (lb + 2)%nat) (seq 0 (length closes - lb)))
    as (X & HX & Hl & HP).
  - intros i Hi. apply in_seq in Hi.
    assert (Hw : length (firstn lb (skipn i closes)) = lb)
      by (rewrite length_firstn, length_skipn; lia).
    destruct (extract_features_ok (firstn lb (skipn i closes))) as (f & Hf & Hfl).
    + intros E. rewrite E in Hw. simpl in Hw. lia.
    + exists f. split; [exact Hf | lia].
  - rewrite HX. exists X. rewrite length_seq in Hl. auto.
Qed.

Lemma prepare_data_short (lb : nat) (closes : list R) :
  (length closes < lb + 5)%nat -> prepare_data lb closes = None.
Proof.
  intros H. unfold prepare_data. destruct (Nat.ltb_spec (length closes) (lb + 5)); [reflexivity|lia].
Qed.

#[local] Arguments fit : simpl never.

Lemma train_model_fresh draws lb closes :
  train_model draws closes {| lookback := lb; model := None |} =
  (Ok tt, match prepare_data lb closes with
          | Some (X, y) => if Nat.ltb (length X) 10 then fresh lb
                           else {| lookback := lb; model := Some (fit draws X y) |}
          | None => fresh lb
          end).
Proof.
  unfold train_model, fbind, get_self, fret, set_model. cbn [lookback].
  destruct (prepare_data lb closes) as [[X y]|]; [|reflexivity].
  destruct (Nat.ltb _ _); reflexivity.
Qed.

(** A forecaster holding a model predicts with it and keeps it. *)
Lemma get_forecast_score_with_model draws closes lb m :
  get_forecast_score draws closes {| lookback := lb; model := Some m |} =
  (match closes with
   | [] => 1 / 2
   | c0 :: _ =>
       match predict_loop m 5 (py_last_k lb closes) with
       | Ok (p :: ps) => forecast_verdict (List.last closes c0) (Rmean (p :: ps))
       | _ => 1 / 2
       end
   end, {| lookback := lb; model := Some m |}).
Proof.
  destruct closes as [|c0 cs]; [reflexivity|].
  cbv beta iota zeta delta [get_forecast_score predict_next_days fbind get_self fret lift
    model lookback].
  destruct (predict_loop m 5 (py_last_k lb (c0 :: cs))) as [[|p ps]|e]; reflexivity.
Qed.

(** A fresh forecaster trains exactly when data preparation yields at least
    10 rows, and then scores as a forecaster holding that model. *)
Lemma get_forecast_score_fresh draws lb closes :
  get_forecast_score draws closes (fresh lb) =
  match closes with
  | [] => (1 / 2, fresh lb)
  | _ :: _ =>
      match prepare_data lb closes with
      | Some (X, y) =>
          if Nat.ltb (length X) 10 then (1 / 2, fresh lb)
          else get_forecast_score draws closes
                 {| lookback := lb; model := Some (fit draws X y) |}
      | None => (1 / 2, fresh lb)
      end
  end.
Proof.
  destruct closes as [|c0 cs]; [reflexivity|].
  unfold fresh.
  cbv beta iota zeta delta [get_forecast_score predict_next_days fbind get_self fret lift
    model lookback].
  rewrite train_model_fresh.
  destruct (prepare_data lb (c0 :: cs)) as [[X y]|]; [|reflexivity].
  destruct (Nat.ltb (length X) 10); reflexivity.
Qed.

Lemma forecast_verdict_ternary (a b : R) :
  forecast_verdict a b = 0 \/ forecast_verdict a b = 1 / 2 \/ forecast_verdict a b = 1.
Proof.
  unfold forecast_verdict.
  destruct (Rlt_dec _ _); [auto|]. destruct (Rlt_dec _ _); auto.
Qed.

Lemma get_forecast_score_ternary draws closes self :
  fst (get_forecast_score draws closes self) = 0 \/
  fst (get_forecast_score draws closes self) = 1 / 2 \/
  fst (get_forecast_score draws closes self) = 1.
Proof.
  unfold get_forecast_score.
  destruct closes as [|c0 cs]; [simpl; auto|].
  unfold fbind. destruct (predict_next_days draws (c0 :: cs) 5 self) as [[[|p ps]|e] s'];
    simpl; auto using forecast_verdict_ternary.
Qed.

(** The first call on a fresh forecaster ([lb >= 1]): below [lb + 10]
    points it scores 0.5 and trains nothing; from [lb + 10] points on it
    fits a model on the history, keeps it, and scores with it. *)
Lemma first_call_fresh draws lb closes :
  (1 <= lb)%nat ->
  ((length closes < lb + 10)%nat ->
     get_forecast_score draws closes (fresh lb) = (1 / 2, fresh lb)) /\
  ((lb + 10 <= length closes)%nat ->
     exists X y, prepare_data lb closes = Some (X, y) /\
       length X = (length closes - lb)%nat /\
       Forall (fun row => length row = (lb + 2)%nat) X /\
       get_forecast_score draws closes (fresh lb) =
       get_forecast_score draws closes {| lookback := lb; model := Some (fit draws X y) |}).
Proof.
  intros Hlb. rewrite get_forecast_score_fresh.
  destruct closes as [|c0 cs]; [split; [reflexivity|simpl; lia]|].
  destruct (Nat.lt_ge_cases (length (c0 :: cs)) (lb + 5)) as [Hs|Hl].
  - rewrite prepare_data_short by exact Hs. split; [reflexivity|lia].
  - destruct (prepare_data_ok lb (c0 :: cs) Hlb Hl) as (X & -> & HX & HF).
    destruct (Nat.ltb_spec (length X) 10) as [H10|H10].
    + split; [reflexivity|lia].
    + split; [lia|]. intros _. eexists _, _. split; [reflexivity|auto].
Qed.

Lemma last_repeat (c d : R) (n : nat) : (0 < n)%nat -> List.last (repeat c n) d = c.
Proof.
  induction n as [|n IH]; intros Hn; [lia|].
  destruct n as [|n]; [reflexivity|].
  change (List.last (c :: repeat c (S n)) d = c). exact (IH ltac:(lia)).
Qed.

(** On a constant history of at least [lb + 10] points, the model fitted by
    a fresh forecaster is a forest of leaves holding that constant, provided
    every bootstrap sample is a nonempty list of valid rows. *)
Lemma fit_on_constant_history draws lb n (c : R) :
  (1 <= lb)%nat -> (lb + 10 <= n)%nat ->
  draws (n - lb)%nat <> [] ->
  (forall dr, In dr (draws (n - lb)%nat) -> dr <> [] /\ forall i, In i dr -> (i < n - lb)%nat) ->
  exists m, get_forecast_score draws (repeat c n) (fresh lb) =
            get_forecast_score draws (repeat c n) {| lookback := lb; model := Some m |} /\
    estimators m <> [] /\ (forall t, In t (estimators m) -> t = Leaf c) /\
    n_features_in m = (lb + 2)%nat.
Proof.
  intros Hlb Hn Hne Hdr.
  destruct (proj2 (first_call_fresh draws lb (repeat c n) Hlb)) as (X & y & Hp & HX & HF & ->);
    [rewrite repeat_length; exact Hn|].
  rewrite repeat_length in HX.
  destruct (prepare_data_ok lb (repeat c n) Hlb) as (X' & Hp' & _); [rewrite repeat_length; lia|].
  rewrite Hp in Hp'. injection Hp' as <- Hy. rewrite repeat_length in Hy.
  assert (Hyc : y = repeat c (n - lb)).
  { rewrite Hy, (map_const _ c), length_seq; [reflexivity|].
    intros i Hi. apply in_seq in Hi. apply nth_repeat_lt. lia. }
  exists (fit draws X y). split; [reflexivity|]. split; [|split].
  - unfold fit. cbn [estimators]. rewrite HX. destruct (draws (n - lb)%nat); [congruence|discriminate].
  - apply fit_const. rewrite HX. intros dr Hin. destruct (Hdr dr Hin) as [Hd Hi].
    split; [exact Hd|]. intros i Hii. rewrite Hyc. apply nth_repeat_lt, Hi, Hii.
  - unfold fit. cbn [n_features_in]. destruct X as [|row X]; [simpl in HX; lia|].
    inversion HF; assumption.
Qed.

(** A forecaster holding a forest of leaves [c'] scores a constant history
    at [c] by comparing [c'] with [c]. *)
Lemma score_with_constant_model draws lb n (c c' : R) (m : Forest) :
  (1 <= lb)%nat -> (lb <= n)%nat ->
  estimators m <> [] -> (forall t, In t (estimators m) -> t = Leaf c') ->
  n_features_in m = (lb + 2)%nat ->
  fst (get_forecast_score draws (repeat c n) {| lookback := lb; model := Some m |})
  = forecast_verdict c c'.
Proof.
  intros Hlb Hn Hne Ht Hnf.
  rewrite get_forecast_score_with_model.
  destruct n as [|n']; [lia|]. cbn [repeat fst].
  rewrite (predict_loop_const m c' 5).
  - cbn [repeat]. replace (Rmean [c'; c'; c'; c'; c']) with c'
      by (symmetry; exact (Rmean_repeat c' 5 ltac:(lia))).
    change (c :: repeat c n') with (repeat c (S n')). rewrite last_repeat by lia. reflexivity.
  - exact Hne.
  - exact Ht.
  - unfold py_last_k. destruct lb as [|lb']; [lia|].
    change (c :: repeat c n') with (repeat c (S n')).
    intros E. apply (f_equal (@length R)) in E. rewrite length_skipn, repeat_length in E.
    simpl in E. lia.
  - unfold py_last_k. destruct lb as [|lb']; [lia|].
    change (c :: repeat c n') with (repeat c (S n')).
    rewrite length_skipn, repeat_length. lia.
Qed.

Lemma full_draws_valid (k : nat) :
  (0 < k)%nat -> full_draws k <> [] /\
  forall dr, In dr (full_draws k) -> dr <> [] /\ forall i, In i dr -> (i < k)%nat.
Proof.
  intros Hk. split; [discriminate|].
  intros dr Hdr. apply repeat_spec in Hdr. subst dr. split.
  - destruct k; [lia|discriminate].
  - intros i Hi. apply in_seq in Hi. lia.
Qed.

(** C5 (counterexample): a fresh forecaster (lookback 60) on 65 points,
    at least lookback + 5, scores 0.5 and trains no model. *)
Lemma C5_counterexample :
  get_forecast_score full_draws (repeat 100 65) (fresh 60) = (1 / 2, fresh 60).
Proof.
  apply (proj1 (first_call_fresh full_draws 60 (repeat 100 65) ltac:(lia))).
  rewrite repeat_length. lia.
Qed.

(** C5 (amended): on a fresh forecaster with lookback [lb >= 1], a history
    of fewer than [lb + 10] points gets the neutral score 0.5 and no model
    is trained; a history of at least [lb + 10] points trains a model on
    its [length - lb] prepared rows, which the forecaster keeps; the score
    is always one of 0, 0.5, 1. *)
Theorem forecast_training_threshold draws lb closes (Hlb : (1 <= lb)%nat) :
  (fst (get_forecast_score draws closes (fresh lb)) = 0 \/
   fst (get_forecast_score draws closes (fresh lb)) = 1 / 2 \/
   fst (get_forecast_score draws closes (fresh lb)) = 1) /\
  lookback (snd (get_forecast_score draws closes (fresh lb))) = lb /\
  ((length closes < lb + 10)%nat ->
     fst (get_forecast_score draws closes (fresh lb)) = 1 / 2 /\
     model (snd (get_forecast_score draws closes (fresh lb))) = None) /\
  ((lb + 10 <= length closes)%nat ->
     exists X y, prepare_data lb closes = Some (X, y) /\
       length X = (length closes - lb)%nat /\
       model (snd (get_forecast_score draws closes (fresh lb))) = Some (fit draws X y)).
Proof.
  split; [apply get_forecast_score_ternary|].
  destruct (first_call_fresh draws lb closes Hlb) as [Hshort Hlong].
  destruct (Nat.lt_ge_cases (length closes) (lb + 10)) as [Hs|Hl].
  - rewrite (Hshort Hs). split; [reflexivity|]. split; [auto|lia].
  - destruct (Hlong Hl) as (X & y & Hp & HX & _ & ->).
    rewrite get_forecast_score_with_model. cbn [snd lookback model].
    split; [reflexivity|]. split; [lia|]. intros _. exists X, y. auto.
Qed.

Lemma forecast_training_threshold_witness :
  (1 <= 60)%nat /\
  (fst (get_forecast_score full_draws (repeat 100 70) (fresh 60)) = 0 \/
   fst (get_forecast_score full_draws (repeat 100 70) (fresh 60)) = 1 / 2 \/
   fst (get_forecast_score full_draws (repeat 100 70) (fresh 60)) = 1) /\
  lookback (snd (get_forecast_score full_draws (repeat 100 70) (fresh 60))) = 60%nat /\
  ((length (repeat 100 70) < 60 + 10)%nat ->
     fst (get_forecast_score full_draws (repeat 100 70) (fresh 60)) = 1 / 2 /\
     model (snd (get_forecast_score full_draws (repeat 100 70) (fresh 60))) = None) /\
  ((60 + 10 <= length (repeat 100 70))%nat ->
     exists X y, prepare_data 60 (repeat 100 70) = Some (X, y) /\
       length X = (length (repeat 100 70) - 60)%nat /\
       model (snd (get_forecast_score full_draws (repeat 100 70) (fresh 60)))
         = Some (fit full_draws X y)).
Proof. split; [lia|]. apply (forecast_training_threshold full_draws 60 (repeat 100 70)). lia. Defined.

(** C2 (counterexample): one forecaster (lookback 60) scores 70 points at
    100, then 70 points at 50.  It keeps the model fitted on the first
    history, which predicts 100, so the second score is 1; a fresh
    forecaster fits the second history and scores it 0.5. *)
Lemma C2_counterexample :
  fst (get_forecast_score full_draws (repeat 50 70)
         (snd (get_forecast_score full_draws (repeat 100 70) (fresh 60)))) = 1 /\
  fst (get_forecast_score full_draws (repeat 50 70) (fresh 60)) = 1 / 2.
Proof.
  destruct (full_draws_valid 10 ltac:(lia)) as [Hne Hdr].
  destruct (fit_on_constant_history full_draws 60 70 100 ltac:(lia) ltac:(lia) Hne Hdr)
    as (m1 & -> & Hm1 & Ht1 & Hnf1).
  destruct (fit_on_constant_history full_draws 60 70 50 ltac:(lia) ltac:(lia) Hne Hdr)
    as (m2 & -> & Hm2 & Ht2 & Hnf2).
  rewrite get_forecast_score_with_model. cbn [snd].
  rewrite !(score_with_constant_model full_draws 60 70 50 _ _ ltac:(lia) ltac:(lia) Hm1 Ht1 Hnf1),
          !(score_with_constant_model full_draws 60 70 50 _ _ ltac:(lia) ltac:(lia) Hm2 Ht2 Hnf2).
  unfold forecast_verdict.
  split; repeat (destruct (Rlt_dec _ _)); lra.
Qed.

(** C2 (amended): a forecaster keeps the first model it trains.  After a
    call on [h1] with a fresh forecaster ([lb >= 1]): if [h1] has fewer
    than [lb + 10] points, no model was trained and the forecaster is
    again a fresh one, so any later call scores as on a fresh forecaster;
    otherwise it holds the model fitted on [h1], and every later call on
    any [h2] predicts with that model, without refitting, and leaves the
    forecaster unchanged. *)
Theorem forecaster_keeps_first_model draws lb (h1 : list R) (Hlb : (1 <= lb)%nat) :
  ((length h1 < lb + 10)%nat ->
     snd (get_forecast_score draws h1 (fresh lb)) = fresh lb) /\
  ((lb + 10 <= length h1)%nat ->
     exists X y, prepare_data lb h1 = Some (X, y) /\
       snd (get_forecast_score draws h1 (fresh lb))
         = {| lookback := lb; model := Some (fit draws X y) |} /\
       forall h2,
         get_forecast_score draws h2 (snd (get_forecast_score draws h1 (fresh lb))) =
         (match h2 with
          | [] => 1 / 2
          | c0 :: _ =>
              match predict_loop (fit draws X y) 5 (py_last_k lb h2) with
              | Ok (p :: ps) => forecast_verdict (List.last h2 c0) (Rmean (p :: ps))
              | _ => 1 / 2
              end
          end, snd (get_forecast_score draws h1 (fresh lb)))).
Proof.
  destruct (first_call_fresh draws lb h1 Hlb) as [Hshort Hlong]. split.
  - intros Hs. rewrite (Hshort Hs). reflexivity.
  - intros Hl. destruct (Hlong Hl) as (X & y & Hp & _ & _ & ->).
    rewrite get_forecast_score_with_model. cbn [snd].
    exists X, y. split; [exact Hp|]. split; [reflexivity|].
    intros h2. apply get_forecast_score_with_model.
Qed.

Lemma forecaster_keeps_first_model_witness :
  (1 <= 60)%nat /\
  ((length (repeat 100 70) < 60 + 10)%nat ->
     snd (get_forecast_score full_draws (repeat 100 70) (fresh 60)) = fresh 60) /\
  ((60 + 10 <= length (repeat 100 70))%nat ->
     exists X y, prepare_data 60 (repeat 100 70) = Some (X, y) /\
       snd (get_forecast_score full_draws (repeat 100 70) (fresh 60))
         = {| lookback := 60; model := Some (fit full_draws X y) |} /\
       forall h2,
         get_forecast_score full_draws h2
           (snd (get_forecast_score full_draws (repeat 100 70) (fresh 60))) =
         (match h2 with
          | [] => 1 / 2
          | c0 :: _ =>
              match predict_loop (fit full_draws X y) 5 (py_last_k 60 h2) with
              | Ok (p :: ps) => forecast_verdict (List.last h2 c0) (Rmean (p :: ps))
              | _ => 1 / 2
              end
          end, snd (get_forecast_score full_draws (repeat 100 70) (fresh 60)))).
Proof. split; [lia|]. apply (forecaster_keeps_first_model full_draws 60 (repeat 100 70)). lia. Defined.

End ForecastFacts.

Module PipelineFacts.
Import Forecast Pipeline.
Local Open Scope R_scope.

(** A row as [process_stock] scores it: sub-scores in [0, 1] and the
    weighted pre-score. *)
Definition well_scored (w : PWeights) (r : Row) : Prop :=
  0 <= Tech_Score r <= 1 /\ 0 <= Fund_Score r <= 1 /\ 0 <= Sent_Score r <= 1 /\
  Pre_Score r = w_technical w * Tech_Score r + w_fundamental w * Fund_Score r
                + w_sentiment w * Sent_Score r.

Lemma insert_desc_perm key x l : insert_desc key x l ≡ₚ x :: l.
Proof.
  induction l as [|y l IH]; [reflexivity|]. simpl.
  destruct (Rlt_dec _ _); [|reflexivity].
  rewrite IH. apply perm_swap.
Qed.

Lemma sort_desc_perm key l : sort_desc key l ≡ₚ l.
Proof.
  induction l as [|x l IH]; [reflexivity|]. simpl. rewrite insert_desc_perm, IH. reflexivity.
Qed.

Lemma boost_range (x : R) : 0 <= x -> 0 <= boost x <= 99 / 100.
Proof.
  intros Hx. unfold boost.
  destruct (Rlt_dec _ _) as [H|H]; [destruct (Rlt_dec _ _)|]; lra.
Qed.

Lemma forecast_fold_log weights draws fetch top : forall log fc u,
  let '(log', _, u') := fold_left (forecast_step weights draws fetch) top (log, fc, u) in
  log' = log ++ map (fun r => FetchHistory (rTicker r)) top /\
  forall t, is_Some (u' !! t) <-> is_Some (u !! t) \/ In t (map rTicker top).
Proof.
  induction top as [|r top IH]; intros log fc u.
  - simpl. split; [rewrite app_nil_r; reflexivity|]. tauto.
  - cbn [fold_left]. unfold forecast_step at 2.
    destruct (get_forecast_score draws (fetch (rTicker r)) fc) as [fs fc'].
    specialize (IH (log ++ [FetchHistory (rTicker r)]) fc'
                  (<[rTicker r := (fs, boost (Pre_Score r + match w_forecast weights with
                     Some w => w | None => 0 end * fs))]> u)).
    destruct (fold_left _ top _) as [[log' fc''] u'].
    destruct IH as [-> Hk]. split; [rewrite <- app_assoc; reflexivity|].
    intros t. rewrite Hk. simpl.
    destruct (decide (t = rTicker r)) as [->|Hne].
    + rewrite lookup_insert_eq. split; [auto|]. intros _. left. eauto.
    + rewrite lookup_insert_ne by congruence. intuition congruence.
Qed.

Lemma forecast_fold_range weights draws fetch top : forall log fc u,
  0 <= match w_forecast weights with Some w => w | None => 0 end ->
  (forall r, In r top -> 0 <= Pre_Score r) ->
  (forall t fs fin, u !! t = Some (fs, fin) -> 0 <= fin <= 99 / 100) ->
  let '(_, _, u') := fold_left (forecast_step weights draws fetch) top (log, fc, u) in
  forall t fs fin, u' !! t = Some (fs, fin) -> 0 <= fin <= 99 / 100.
Proof.
  induction top as [|r top IH]; intros log fc u Hw Hpre Hu; [exact Hu|].
  cbn [fold_left]. unfold forecast_step at 2.
  pose proof (ForecastFacts.get_forecast_score_ternary draws (fetch (rTicker r)) fc) as Hfs.
  destruct (get_forecast_score draws (fetch (rTicker r)) fc) as [fs fc']. cbn [fst] in Hfs.
  apply IH; [exact Hw|intros; apply Hpre; right; assumption|].
  intros t fs' fin Ht. destruct (decide (t = rTicker r)) as [->|Hne].
  - rewrite lookup_insert_eq in Ht. injection Ht as <- <-. apply boost_range.
    assert (0 <= Pre_Score r) by (apply Hpre; left; reflexivity).
    assert (0 <= fs) by lra. apply Rplus_le_le_0_compat; [assumption|].
    apply Rmult_le_pos; assumption.
  - rewrite lookup_insert_ne in Ht by congruence. eapply Hu; eassumption.
Qed.

Lemma scan_fold_rows process_stock (P : Row -> Prop) l : forall log results,
  (forall r, In r results -> P r) ->
  (forall s r, snd (process_stock s) = Some r -> P r) ->
  forall r, In r (snd (fold_left (scan_step process_stock) l (log, results))) -> P r.
Proof.
  induction l as [|s l IH]; intros log results Hres Hps; [exact Hres|].
  cbn [fold_left]. unfold scan_step at 2.
  destruct (process_stock s) as [fetched res] eqn:Hs.
  apply IH; [|exact Hps]. intros r Hr. destruct res as [r'|]; [|auto].
  apply in_app_or in Hr as [Hr|[<-|[]]]; [auto|]. apply (Hps s). rewrite Hs. reflexivity.
Qed.

Lemma scan_rows process_stock as_completed skip_fetch stocks_list prior (P : Row -> Prop) :
  (forall r, In r prior -> P r) ->
  (forall s r, snd (process_stock s) = Some r -> P r) ->
  forall r, In r (snd (scan process_stock as_completed skip_fetch stocks_list prior)) -> P r.
Proof.
  intros Hp Hps. unfold scan.
  destruct (_ && _); [exact Hp|]. apply scan_fold_rows; assumption.
Qed.

Lemma scan_nothing_to_do process_stock as_completed skip_fetch stocks_list prior :
  as_completed [] = [] ->
  (forall s, In s stocks_list -> In (sTicker s) (processed_tickers prior)) ->
  scan process_stock as_completed skip_fetch stocks_list prior = ([], prior).
Proof.
  intros Hac Hall. unfold scan.
  assert (Hnil : stocks_to_process stocks_list prior = []).
  { unfold stocks_to_process. induction stocks_list as [|s l IH]; [reflexivity|].
    simpl. rewrite bool_decide_true.
    - apply IH. intros; apply Hall; right; assumption.
    - apply list_elem_of_In, Hall. left; reflexivity. }
  rewrite Hnil, Hac. destruct skip_fetch; reflexivity.
Qed.

Lemma merge_keeps updates r :
  rTicker (merge updates r) = rTicker r /\ Pre_Score (merge updates r) = Pre_Score r /\
  Tech_Score (merge updates r) = Tech_Score r /\ Fund_Score (merge updates r) = Fund_Score r /\
  Sent_Score (merge updates r) = Sent_Score r.
Proof. unfold merge. destruct (updates !! rTicker r) as [[fs fin]|]; simpl; auto. Qed.

Lemma in_firstn_in {A} n (x : A) l : In x (firstn n l) -> In x l.
Proof. intros H. rewrite <- (firstn_skipn n l). apply in_or_app. left; exact H. Qed.

(** Step 1 on its own: the run's fetch log starts with the universe
    fetches, and steps 2-5 see the selected entities. *)
Lemma run_full_analysis_split weights draws process_stock fetch as_completed top_n
    nse_eq_symbols equity_csv shuffle limit skip_fetch skip_forecast prior fc :
  run_full_analysis weights draws process_stock fetch as_completed top_n
    nse_eq_symbols equity_csv shuffle limit skip_fetch skip_forecast prior fc =
  let '(recs, results, log, fc') :=
    analyze_stocks weights draws process_stock fetch as_completed top_n
      skip_fetch skip_forecast (run_stocks nse_eq_symbols equity_csv shuffle limit) prior fc in
  (recs, results, fst (get_nse_equity_list nse_eq_symbols equity_csv) ++ log, fc').
Proof.
  unfold run_full_analysis, run_stocks.
  destruct (get_nse_equity_list nse_eq_symbols equity_csv). reflexivity.
Qed.

Lemma run_full_analysis_results weights draws process_stock fetch as_completed top_n
    nse_eq_symbols equity_csv shuffle limit skip_fetch skip_forecast prior fc :
  snd (fst (fst (run_full_analysis weights draws process_stock fetch as_completed top_n
    nse_eq_symbols equity_csv shuffle limit skip_fetch skip_forecast prior fc))) =
  snd (fst (fst (analyze_stocks weights draws process_stock fetch as_completed top_n
      skip_fetch skip_forecast (run_stocks nse_eq_symbols equity_csv shuffle limit) prior fc))).
Proof.
  rewrite run_full_analysis_split.
  destruct (analyze_stocks _ _ _ _ _ _ _ _ _ _ _) as [[[? ?] ?] ?]. reflexivity.
Qed.

(** [get_nse_equity_list] always makes a request: [nse_eq_symbols()], the
    [EQUITY_L.csv] download, or both. *)
Lemma get_nse_equity_list_fetches nse_eq_symbols equity_csv :
  In (fst (get_nse_equity_list nse_eq_symbols equity_csv))
    [[FetchSymbols]; [FetchEquityCsv]; [FetchSymbols; FetchEquityCsv]].
Proof.
  unfold get_nse_equity_list.
  destruct nse_eq_symbols as [[symbols|e]|]; [destruct (Nat.ltb 500 (length symbols))|..];
    simpl; tauto.
Qed.

(** Weights 1, 1, 1 (not summing to 1) and a row scoring 1 everywhere. *)
Definition ones_weights : PWeights :=
  {| w_technical := 1; w_fundamental := 1; w_sentiment := 1; w_forecast := Some 1 |}.

Definition top_row : Row :=
  {| rTicker := "TOP"; Pre_Score := 3; Final_Score := 3; Forecast_Score := 0;
     Tech_Score := 1; Fund_Score := 1; Sent_Score := 1 |}.

(** C3 (counterexample): a fetch-only run (nsepython missing, the CSV
    download answering a non-200 status, so the fallback universe) over a
    result file holding one row scored with weights 1, 1, 1 and sub-scores 1,
    where no scanned entity yields a row, leaves its Final_Score (the
    pre-score placeholder) at 3. *)
Lemma C3_counterexample :
  well_scored ones_weights top_row /\
  map Final_Score (snd (fst (fst (run_full_analysis ones_weights full_draws
      (fun _ => ([], None)) (fun _ => []) (fun l => l) 10 None (Ok None) (fun l => l)
      None false true [top_row] (fresh 60))))) = [3].
Proof. split; [unfold well_scored; simpl; lra | reflexivity]. Qed.

(** C3 (amended): with non-negative weights and every scanned row (read
    back or newly scored) scored with sub-scores in [0, 1], every row of the
    result set comes from a scanned row [r0] with the same ticker and a
    pre-score in [0, w_technical + w_fundamental + w_sentiment].  In a
    fetch-only run it is [r0] unchanged; in a forecast run its Final_Score
    is in [0, 0.99] when its ticker is among the top 20 by pre-score, and
    equals the pre-score otherwise. *)
Theorem final_score_range weights draws process_stock fetch as_completed top_n
    nse_eq_symbols equity_csv shuffle limit skip_fetch skip_forecast prior fc
    (Hwt : 0 <= w_technical weights) (Hwf : 0 <= w_fundamental weights)
    (Hws : 0 <= w_sentiment weights)
    (Hwfc : 0 <= match w_forecast weights with Some w => w | None => 0 end)
    (Hprior : forall r, In r prior -> well_scored weights r)
    (Hnew : forall s r, snd (process_stock s) = Some r -> well_scored weights r)
    r (Hr : In r (snd (fst (fst (run_full_analysis weights draws process_stock fetch
                as_completed top_n nse_eq_symbols equity_csv shuffle limit
                skip_fetch skip_forecast prior fc))))) :
  exists r0,
    In r0 (snd (scan process_stock as_completed skip_fetch
                  (run_stocks nse_eq_symbols equity_csv shuffle limit) prior)) /\
    rTicker r = rTicker r0 /\ Pre_Score r = Pre_Score r0 /\
    0 <= Pre_Score r0 <= w_technical weights + w_fundamental weights + w_sentiment weights /\
    (skip_forecast = true -> r = r0) /\
    (skip_forecast = false ->
       (In (rTicker r0) (map rTicker (firstn 20 (sort_desc Pre_Score
            (snd (scan process_stock as_completed skip_fetch
                    (run_stocks nse_eq_symbols equity_csv shuffle limit) prior))))) ->
          0 <= Final_Score r <= 99 / 100) /\
       (~ In (rTicker r0) (map rTicker (firstn 20 (sort_desc Pre_Score
            (snd (scan process_stock as_completed skip_fetch
                    (run_stocks nse_eq_symbols equity_csv shuffle limit) prior))))) ->
          Final_Score r = Pre_Score r0)).
Proof.
  set (stocks_list := run_stocks nse_eq_symbols equity_csv shuffle limit).
  pose proof (scan_rows process_stock as_completed skip_fetch stocks_list prior
                (well_scored weights) Hprior Hnew) as Hws_all.
  assert (Hpre : forall r0, In r0 (snd (scan process_stock as_completed skip_fetch stocks_list prior)) ->
            0 <= Pre_Score r0 <= w_technical weights + w_fundamental weights + w_sentiment weights).
  { intros r0 H0. destruct (Hws_all r0 H0) as (Ht & Hf & Hs & ->). nra. }
  rewrite run_full_analysis_results in Hr. fold stocks_list in Hr.
  unfold analyze_stocks in Hr.
  destruct (scan process_stock as_completed skip_fetch stocks_list prior) as [log1 results].
  cbn [snd] in *.
  destruct results as [|x xs]; [simpl in Hr; contradiction|].
  set (sorted := sort_desc Pre_Score (x :: xs)) in *.
  assert (Hsorted : forall y, In y sorted -> In y (x :: xs)).
  { intros y Hy. eapply Permutation_in; [apply sort_desc_perm|exact Hy]. }
  destruct skip_forecast.
  - cbn in Hr. exists r. split; [apply Hsorted, Hr|].
    split; [reflexivity|]. split; [reflexivity|]. split; [apply Hpre, Hsorted, Hr|].
    split; [reflexivity|discriminate].
  - pose proof (forecast_fold_log weights draws fetch (firstn 20 sorted) [] fc ∅) as HL.
    pose proof (forecast_fold_range weights draws fetch (firstn 20 sorted) [] fc ∅ Hwfc) as HR.
    unfold forecast_pass in Hr.
    destruct (fold_left _ (firstn 20 sorted) _) as [[log2 fc'] u].
    destruct HL as [_ Hk].
    specialize (HR ltac:(intros y Hy; apply Hpre, Hsorted, (in_firstn_in 20), Hy)
                   ltac:(intros t fs fin Ht; rewrite lookup_empty in Ht; discriminate)).
    cbn in Hr.
    apply (Permutation_in _ (sort_desc_perm _ _)) in Hr.
    apply in_map_iff in Hr as (r0 & <- & Hr0).
    exists r0. destruct (merge_keeps u r0) as (Ht & Hp & _).
    split; [apply Hsorted, Hr0|]. split; [exact Ht|]. split; [exact Hp|].
    split; [apply Hpre, Hsorted, Hr0|]. split; [discriminate|]. intros _.
    specialize (Hk (rTicker r0)). rewrite lookup_empty in Hk.
    unfold merge in *. destruct (u !! rTicker r0) as [[fs fin]|] eqn:Hl; cbn [Final_Score].
    + split; [intros _; eapply HR; exact Hl|].
      intros Hn. exfalso. apply Hn. destruct (proj1 Hk ltac:(eexists; reflexivity)) as [[? H]|H];
        [discriminate|exact H].
    + split; [|reflexivity]. intros Hin. exfalso.
      destruct (proj2 Hk (or_intror Hin)) as [? H]. discriminate.
Qed.

Lemma final_score_range_witness :
  In top_row (snd (fst (fst (run_full_analysis ones_weights full_draws
      (fun _ => ([], None)) (fun _ => []) (fun l => l) 10 None (Ok None) (fun l => l)
      None false true [top_row] (fresh 60))))) /\
  exists r0,
    In r0 (snd (scan (fun _ => ([], None)) (fun l => l) false
                  (run_stocks None (Ok None) (fun l => l) None) [top_row])) /\
    rTicker top_row = rTicker r0 /\ Pre_Score top_row = Pre_Score r0 /\
    0 <= Pre_Score r0 <= w_technical ones_weights + w_fundamental ones_weights
                         + w_sentiment ones_weights /\
    (true = true -> top_row = r0) /\
    (true = false ->
       (In (rTicker r0) (map rTicker (firstn 20 (sort_desc Pre_Score
            (snd (scan (fun _ => ([], None)) (fun l => l) false
                    (run_stocks None (Ok None) (fun l => l) None) [top_row]))))) ->
          0 <= Final_Score top_row <= 99 / 100) /\
       (~ In (rTicker r0) (map rTicker (firstn 20 (sort_desc Pre_Score
            (snd (scan (fun _ => ([], None)) (fun l => l) false
                    (run_stocks None (Ok None) (fun l => l) None) [top_row]))))) ->
          Final_Score top_row = Pre_Score r0)).
Proof.
  assert (Hin : In top_row (snd (fst (fst (run_full_analysis ones_weights full_draws
      (fun _ => ([], None)) (fun _ => []) (fun l => l) 10 None (Ok None) (fun l => l)
      None false true [top_row] (fresh 60)))))) by (vm_compute; left; reflexivity).
  split; [exact Hin|].
  apply (final_score_range ones_weights full_draws (fun _ => ([], None)) (fun _ => [])
           (fun l => l) 10 None (Ok None) (fun l => l) None false true [top_row] (fresh 60));
    simpl; try lra.
  - intros r [<-|[]]. unfold well_scored; simpl; lra.
  - intros _ r H. discriminate.
  - exact Hin.
Defined.

(** C4 (counterexample): re-running over a result file that already holds
    every entity of the run (the first fallback ticker, with [limit=1])
    still downloads the universe list, in a fetch-only run as in a forecast
    run; the forecast run also fetches the row's history again and rewrites
    its Forecast_Score (0 to 0.5) and Final_Score (0.1 to 0.2). *)
Definition rerun_weights : PWeights :=
  {| w_technical := 1 / 10; w_fundamental := 0; w_sentiment := 0; w_forecast := Some (1 / 5) |}.

Definition rerun_row : Row :=
  {| rTicker := "RELIANCE.NS"; Pre_Score := 1 / 10; Final_Score := 1 / 10;
     Forecast_Score := 0; Tech_Score := 1; Fund_Score := 0; Sent_Score := 0 |}.

Lemma rerun_scan skip_fetch :
  scan (fun _ => ([], None)) (fun l => l) skip_fetch
    (run_stocks None (Ok None) (fun l => l) (Some 1%Z)) [rerun_row] = ([], [rerun_row]).
Proof.
  apply scan_nothing_to_do; [reflexivity|].
  intros s Hs. vm_compute in Hs. destruct Hs as [<-|[]]. left. reflexivity.
Qed.

Lemma C4_counterexample :
  snd (fst (run_full_analysis rerun_weights full_draws (fun _ => ([], None)) (fun _ => [])
      (fun l => l) 10 None (Ok None) (fun l => l) (Some 1%Z) false true [rerun_row]
      (fresh 60))) = [FetchEquityCsv] /\
  snd (fst (run_full_analysis rerun_weights full_draws (fun _ => ([], None)) (fun _ => [])
      (fun l => l) 10 None (Ok None) (fun l => l) (Some 1%Z) false false [rerun_row]
      (fresh 60))) = [FetchEquityCsv; FetchHistory "RELIANCE.NS"] /\
  map (fun r => (Forecast_Score r, Final_Score r))
    (snd (fst (fst (run_full_analysis rerun_weights full_draws (fun _ => ([], None))
      (fun _ => []) (fun l => l) 10 None (Ok None) (fun l => l) (Some 1%Z) false false
      [rerun_row] (fresh 60))))) = [(1 / 2, 1 / 5)].
Proof.
  assert (Hb : boost (1 / 10 + 1 / 5 * (1 / 2)) = 1 / 5).
  { unfold boost. destruct (Rlt_dec _ _); [lra|]. lra. }
  rewrite !run_full_analysis_split. unfold analyze_stocks, forecast_pass.
  rewrite !rerun_scan.
  cbn -[boost Rdiv Rplus Rmult]. rewrite Hb. split; [|split]; reflexivity.
Qed.

(** C4 (amended): every run first downloads the universe list
    ([get_nse_equity_list]: [nse_eq_symbols()], the [EQUITY_L.csv]
    download, or both).  When every entity the run selects already has a row
    in the result file, the re-run scores no entity ([process_stock] is
    never called, the scan fetches nothing).  In a fetch-only run the
    universe download is the only fetch, the forecaster is untouched and the
    result set is a reordering of the prior rows.  In a forecast run the
    only other fetches are the histories of the top 20 rows by pre-score,
    one each, and the result set holds the prior rows' tickers and
    pre-scores, reordered, with Forecast_Score and Final_Score
    recomputed. *)
Theorem rerun_fully_processed weights draws process_stock fetch as_completed top_n
    nse_eq_symbols equity_csv shuffle limit skip_fetch skip_forecast prior fc
    (Hac : forall l, as_completed l ≡ₚ l)
    (Hall : forall s, In s (run_stocks nse_eq_symbols equity_csv shuffle limit) ->
              In (sTicker s) (processed_tickers prior)) :
  In (fst (get_nse_equity_list nse_eq_symbols equity_csv))
    [[FetchSymbols]; [FetchEquityCsv]; [FetchSymbols; FetchEquityCsv]] /\
  scan process_stock as_completed skip_fetch
    (run_stocks nse_eq_symbols equity_csv shuffle limit) prior = ([], prior) /\
  (skip_forecast = true ->
     snd (fst (run_full_analysis weights draws process_stock fetch as_completed top_n
                 nse_eq_symbols equity_csv shuffle limit skip_fetch skip_forecast prior fc))
       = fst (get_nse_equity_list nse_eq_symbols equity_csv) /\
     snd (fst (fst (run_full_analysis weights draws process_stock fetch as_completed top_n
                 nse_eq_symbols equity_csv shuffle limit skip_fetch skip_forecast prior fc)))
       ≡ₚ prior /\
     snd (run_full_analysis weights draws process_stock fetch as_completed top_n
                 nse_eq_symbols equity_csv shuffle limit skip_fetch skip_forecast prior fc)
       = fc) /\
  (skip_forecast = false ->
     snd (fst (run_full_analysis weights draws process_stock fetch as_completed top_n
                 nse_eq_symbols equity_csv shuffle limit skip_fetch skip_forecast prior fc))
       = fst (get_nse_equity_list nse_eq_symbols equity_csv) ++
         map (fun r => FetchHistory (rTicker r)) (firstn 20 (sort_desc Pre_Score prior)) /\
     map (fun r => (rTicker r, Pre_Score r))
       (snd (fst (fst (run_full_analysis weights draws process_stock fetch as_completed
                 top_n nse_eq_symbols equity_csv shuffle limit skip_fetch skip_forecast
                 prior fc))))
       ≡ₚ map (fun r => (rTicker r, Pre_Score r)) prior).
Proof.
  assert (Hs : scan process_stock as_completed skip_fetch
                 (run_stocks nse_eq_symbols equity_csv shuffle limit) prior = ([], prior)).
  { apply scan_nothing_to_do; [|exact Hall].
    apply Permutation_nil. symmetry. apply Hac. }
  split; [apply get_nse_equity_list_fetches|].
  split; [exact Hs|].
  rewrite run_full_analysis_split. unfold analyze_stocks. rewrite Hs.
  set (log0 := fst (get_nse_equity_list nse_eq_symbols equity_csv)).
  destruct prior as [|x xs].
  { split; intros _; cbn; rewrite ?app_nil_r; [auto|]. split; reflexivity. }
  cbn zeta beta iota.
  set (sorted := sort_desc Pre_Score (x :: xs)).
  split; intros ->.
  - cbn. rewrite app_nil_r. split; [reflexivity|].
    split; [exact (sort_desc_perm Pre_Score (x :: xs))|reflexivity].
  - pose proof (forecast_fold_log weights draws fetch (firstn 20 sorted) [] fc ∅) as HL.
    unfold forecast_pass.
    destruct (fold_left _ (firstn 20 sorted) _) as [[log2 fc'] u].
    destruct HL as [HL _]. cbn -[sort_desc]. split; [rewrite HL; reflexivity|].
    rewrite (sort_desc_perm Final_Score), map_map.
    transitivity (map (fun r => (rTicker r, Pre_Score r)) sorted).
    + apply Permutation_refl'. apply map_ext. intros r.
      destruct (merge_keeps u r) as (-> & -> & _). reflexivity.
    + exact (Permutation_map _ (sort_desc_perm Pre_Score (x :: xs))).
Qed.

Lemma rerun_fully_processed_witness :
  In (fst (get_nse_equity_list None (Ok None)))
    [[FetchSymbols]; [FetchEquityCsv]; [FetchSymbols; FetchEquityCsv]] /\
  scan (fun _ => ([], None)) (fun l => l) false
    (run_stocks None (Ok None) (fun l => l) (Some 1%Z)) [rerun_row] = ([], [rerun_row]) /\
  (false = true ->
     snd (fst (run_full_analysis rerun_weights full_draws (fun _ => ([], None)) (fun _ => [])
       (fun l => l) 10 None (Ok None) (fun l => l) (Some 1%Z) false false [rerun_row]
       (fresh 60))) = fst (get_nse_equity_list None (Ok None)) /\
     snd (fst (fst (run_full_analysis rerun_weights full_draws (fun _ => ([], None))
       (fun _ => []) (fun l => l) 10 None (Ok None) (fun l => l) (Some 1%Z) false false
       [rerun_row] (fresh 60)))) ≡ₚ [rerun_row] /\
     snd (run_full_analysis rerun_weights full_draws (fun _ => ([], None)) (fun _ => [])
       (fun l => l) 10 None (Ok None) (fun l => l) (Some 1%Z) false false [rerun_row]
       (fresh 60)) = fresh 60) /\
  (false = false ->
     snd (fst (run_full_analysis rerun_weights full_draws (fun _ => ([], None)) (fun _ => [])
       (fun l => l) 10 None (Ok None) (fun l => l) (Some 1%Z) false false [rerun_row]
       (fresh 60)))
       = fst (get_nse_equity_list None (Ok None)) ++
         map (fun r => FetchHistory (rTicker r)) (firstn 20 (sort_desc Pre_Score [rerun_row])) /\
     map (fun r => (rTicker r, Pre_Score r))
       (snd (fst (fst (run_full_analysis rerun_weights full_draws (fun _ => ([], None))
         (fun _ => []) (fun l => l) 10 None (Ok None) (fun l => l) (Some 1%Z) false false
         [rerun_row] (fresh 60)))))
       ≡ₚ map (fun r => (rTicker r, Pre_Score r)) [rerun_row]).
Proof.
  apply (rerun_fully_processed rerun_weights full_draws (fun _ => ([], None)) (fun _ => [])
           (fun l => l) 10 None (Ok None) (fun l => l) (Some 1%Z) false false [rerun_row]
           (fresh 60)).
  - intros l. reflexivity.
  - intros s Hs. vm_compute in Hs. destruct Hs as [<-|[]]. left. reflexivity.
Defined.

End PipelineFacts.

(* ================================================================== *)
(** * Further properties of the code *)

Module TechnicalsProps.
Import Technicals.
Local Open Scope Q_scope.











Lemma Qdiv_nonneg (a b : Q) : 0 <= a -> 0 < b -> 0 <= a / b.
Proof. intros Ha Hb. apply Qle_shift_div_l; [exact Hb|]. rewrite Qmult_0_l. exact Ha. Qed.

Lemma rsi_value_range (g l : Q) :
  0 <= g -> 0 <= l ->
  0 <= (if Qeq_bool l 0 then 100 else 100 - 100 / (1 + g / l)) <= 100.
Proof.
  intros Hg Hl. destruct (Qeq_bool l 0) eqn:E; [split; discriminate|].
  assert (Hl' : 0 < l).
  { apply Qle_lt_or_eq in Hl as [Hl|Hl]; [exact Hl|].
    exfalso. apply Qeq_bool_neq in E. apply E. symmetry. exact Hl. }
  assert (Hx : 0 <= g / l) by (apply Qdiv_nonneg; assumption).
  assert (Hp : 0 < 1 + g / l) by psatzl Q.
  assert (H1 : 0 <= 100 / (1 + g / l)) by (apply Qdiv_nonneg; [discriminate|exact Hp]).
  assert (H2 : 100 / (1 + g / l) <= 100).
  { apply Qle_shift_div_r; [exact Hp|]. psatzl Q. }
  split; psatzl Q.
Qed.

Lemma rsi_from_range (w : Q) l : forall ag al prev,
  1 <= w -> 0 <= ag -> 0 <= al ->
  length (rsi_from w ag al prev l) = length l /\
  Forall (fun x => 0 <= x <= 100) (rsi_from w ag al prev l).
Proof.
  induction l as [|p l IH]; intros ag al prev Hw Hag Hal; [split; [reflexivity|constructor]|].
  cbn [rsi_from length]. cbn zeta.
  set (delta := p - prev).
  set (gain := if Qlt_bool 0 delta then delta else 0).
  set (loss := if Qlt_bool delta 0 then Qabs delta else 0).
  assert (Hg : 0 <= gain).
  { unfold gain. destruct (Qlt_bool 0 delta) eqn:E; [|apply Qle_refl].
    apply FundamentalsFacts.Qlt_bool_iff in E. apply Qlt_le_weak, E. }
  assert (Hl : 0 <= loss).
  { unfold loss. destruct (Qlt_bool delta 0); [apply Qabs_nonneg|apply Qle_refl]. }
  assert (Hw0 : 0 < w) by psatzl Q.
  assert (Hag' : 0 <= (ag * (w - 1) + gain) / w).
  { apply Qdiv_nonneg; [|exact Hw0].
    assert (0 <= ag * (w - 1)) by (apply Qmult_le_0_compat; psatzl Q). psatzl Q. }
  assert (Hal' : 0 <= (al * (w - 1) + loss) / w).
  { apply Qdiv_nonneg; [|exact Hw0].
    assert (0 <= al * (w - 1)) by (apply Qmult_le_0_compat; psatzl Q). psatzl Q. }
  destruct (IH _ _ p Hw Hag' Hal') as [IH1 IH2].
  split; [cbn [length]; congruence|].
  constructor; [apply rsi_value_range; assumption|exact IH2].
Qed.

Lemma Qsum_nonneg l : Forall (fun x => 0 <= x) l -> 0 <= Qsum l.
Proof.
  unfold Qsum. induction 1; cbn [fold_right]; [apply Qle_refl|psatzl Q].
Qed.

Lemma calculate_rsi_props (prices : list Q) (window : nat) (Hw : (1 <= window)%nat) :
  length (calculate_rsi prices window) = length prices /\
  Forall (fun x => 0 <= x <= 100) (calculate_rsi prices window) /\
  forall i, (i <= window)%nat -> (i < length prices)%nat ->
    nth i (calculate_rsi prices window) 0 = 50.
Proof.
  unfold calculate_rsi. destruct (Nat.ltb window (length prices)) eqn:E.
  - apply Nat.ltb_lt in E. cbn zeta.
    set (w := inject_Z (Z.of_nat window)).
    assert (Hw1 : 1 <= w) by (unfold w, Qle; simpl; lia).
    assert (Hw0 : 0 < w) by psatzl Q.
    set (ds := deltas (firstn (window + 1) prices)).
    assert (Hg : 0 <= Qsum (map (fun d => if Qlt_bool 0 d then d else 0) ds) / w).
    { apply Qdiv_nonneg; [|exact Hw0]. apply Qsum_nonneg, Forall_forall.
      intros x Hx. apply list_elem_of_In, in_map_iff in Hx as (d & <- & _).
      destruct (Qlt_bool 0 d) eqn:Ed; [|apply Qle_refl].
      apply FundamentalsFacts.Qlt_bool_iff in Ed. apply Qlt_le_weak, Ed. }
    assert (Hl : 0 <= Qsum (map (fun d => if Qlt_bool 0 d then 0 else Qabs d) ds) / w).
    { apply Qdiv_nonneg; [|exact Hw0]. apply Qsum_nonneg, Forall_forall.
      intros x Hx. apply list_elem_of_In, in_map_iff in Hx as (d & <- & _).
      destruct (Qlt_bool 0 d); [apply Qle_refl|apply Qabs_nonneg]. }
    destruct (rsi_from_range w (skipn (window + 1) prices) _ _ (nth window prices 0)
                Hw1 Hg Hl) as [H1 H2].
    split; [|split].
    + rewrite length_app, repeat_length, H1, length_skipn. lia.
    + apply Forall_app. split; [|exact H2]. apply Forall_forall.
      intros x Hx. apply list_elem_of_In, repeat_spec in Hx. subst x. split; discriminate.
    + intros i Hi _. rewrite app_nth1 by (rewrite repeat_length; lia).
      apply nth_repeat_lt. lia.
  - split; [|split].
    + apply repeat_length.
    + apply Forall_forall. intros x Hx. apply list_elem_of_In, repeat_spec in Hx. subst x. split; discriminate.
    + intros i _ Hi. apply nth_repeat_lt. exact Hi.
Qed.

(** [_calculate_rsi] keeps the length of the price list, every RSI lies in
    [0, 100], and the entries up to index [window] keep the default 50. *)
Theorem calculate_rsi_range (prices : list Q) (window : nat) (Hw : (1 <= window)%nat) :
  length (calculate_rsi prices window) = length prices /\
  Forall (fun x => 0 <= x <= 100) (calculate_rsi prices window) /\
  forall i, (i <= window)%nat -> (i < length prices)%nat ->
    nth i (calculate_rsi prices window) 0 = 50.
Proof. exact (calculate_rsi_props prices window Hw). Qed.

Lemma nth_error_map_seq {A} (g : nat -> A) n i :
  (i < n)%nat -> nth_error (map g (seq 0 n)) i = Some (g i).
Proof.
  intros Hi. rewrite nth_error_map, nth_error_seq.
  apply Nat.ltb_lt in Hi. rewrite Hi. reflexivity.
Qed.

(** [calculate_technicals] returns [None] exactly for fewer than 50 rows; otherwise one row per input row, with its close, an RSI in [0, 100], [SMA_50] undefined exactly on the first 49 rows and [SMA_200] exactly on the first 199. *)
Theorem calculate_technicals_shape (history : list PricePoint) :
  (calculate_technicals history = None <-> (length history < 50)%nat) /\
  forall rows, calculate_technicals history = Some rows ->
    length rows = length history /\
    forall i, (i < length history)%nat ->
      exists r, nth_error rows i = Some r /\
        t_Close r = nth i (map Close history) 0 /\
        0 <= t_RSI r <= 100 /\
        (t_SMA_50 r = None <-> (i < 49)%nat) /\
        (t_SMA_200 r = None <-> (i < 199)%nat).
Proof.
  unfold calculate_technicals. destruct (Nat.ltb (length history) 50) eqn:E.
  - apply Nat.ltb_lt in E. split; [tauto|discriminate].
  - apply Nat.ltb_ge in E. split; [split; [discriminate|lia]|].
    intros rows Hr. injection Hr as <-.
    split; [rewrite length_map, length_seq; reflexivity|].
    intros i Hi. eexists. split; [apply nth_error_map_seq, Hi|]. cbn.
    set (closes := map Close history).
    assert (Hc : length closes = length history) by apply length_map.
    split; [reflexivity|].
    destruct (calculate_rsi_props closes 14 ltac:(lia)) as (Hl & Hf & _).
    split.
    { rewrite Forall_nth in Hf. apply Hf. lia. }
    split.
    + unfold calculate_sma. rewrite TechnicalsFacts.nth_map_seq by lia.
      match goal with |- context [if Nat.ltb i ?k then _ else _] => destruct (Nat.ltb i k) eqn:Ei end.
      * apply Nat.ltb_lt in Ei. split; [intros _; lia|intros _; reflexivity].
      * apply Nat.ltb_ge in Ei. split; [discriminate|lia].
    + unfold calculate_sma. rewrite TechnicalsFacts.nth_map_seq by lia.
      match goal with |- context [if Nat.ltb i ?k then _ else _] => destruct (Nat.ltb i k) eqn:Ei end.
      * apply Nat.ltb_lt in Ei. split; [intros _; lia|intros _; reflexivity].
      * apply Nat.ltb_ge in Ei. split; [discriminate|lia].
Qed.

(** [get_technical_score] always lies in [0, 1]. *)
Theorem technical_score_unit (rows : list TechRow) :
  0 <= get_technical_score rows <= 1.
Proof.
  unfold get_technical_score. destruct (last rows) as [r|]; [|split; discriminate].
  pose proof (TechnicalsFacts.points_range r) as H.
  pose proof (TechnicalsFacts.technical_checks_five r) as H5.
  destruct (technical_points_checks r) as [s c]. simpl in H, H5. subst c.
  simpl. unfold Qle, Qdiv, Qmult, Qinv; simpl. lia.
Qed.



Lemma calculate_rsi_range_witness :
  length (calculate_rsi [1; 2; 1] 1) = length [1; 2; 1] /\
  Forall (fun x => 0 <= x <= 100) (calculate_rsi [1; 2; 1] 1) /\
  forall i, (i <= 1)%nat -> (i < length [1; 2; 1])%nat ->
    nth i (calculate_rsi [1; 2; 1] 1) 0 = 50.
Proof. apply calculate_rsi_range. lia. Defined.

End TechnicalsProps.

Module FundamentalsProps.
Import Fundamentals.
Local Open Scope Q_scope.

(** Whenever [score_fundamental] returns, its score lies in [0, 1]. *)
Theorem score_fundamental_unit (info : pydict) (q : Q) :
  score_fundamental info = Ok q -> 0 <= q <= 1.
Proof.
  intros H. unfold score_fundamental in H.
  destruct (decide (info = ∅)); [injection H as <-; split; discriminate|].
  repeat (cbn [rbind] in H; match type of H with
   | Err _ = Ok _ => discriminate
   | context [if ?b then _ else _] => destruct b eqn:?
   | context [rbind ?m _] =>
       lazymatch m with
       | rbind _ _ => fail
       | (if _ then _ else _) => fail
       | _ => destruct m eqn:?
       end
   end).
  all: injection H as <-; split; apply Qle_bool_imp_le; vm_compute; reflexivity.
Qed.

(** With numeric [trailingEps] [e] and [bookValue] [b], [calculate_graham_number] is [sqrt(22.5 * e * b)] when both are positive and 0 otherwise; it does not raise. *)
Theorem calculate_graham_number_numbers (info : pydict) (e b : Q) :
  py_get info "trailingEps" PNone = PNum e ->
  py_get info "bookValue" PNone = PNum b ->
  calculate_graham_number info =
    if Qlt_bool 0 e && Qlt_bool 0 b then Ok (GSqrt ((45 # 2) * e * b)) else Ok GZero.
Proof.
  intros He Hb. unfold calculate_graham_number. rewrite He, Hb. cbn [truthy].
  destruct (Qeq_bool e 0) eqn:E0.
  - apply Qeq_bool_iff in E0. simpl.
    replace (Qlt_bool 0 e) with false; [reflexivity|].
    symmetry. apply FundamentalsFacts.Qlt_bool_zero_l; [apply Qle_refl|].
    apply Qeq_bool_iff, E0.
  - destruct (Qeq_bool b 0) eqn:B0.
    + simpl. cbn [py_gt rbind].
      replace (Qlt_bool 0 b) with false by (symmetry; apply FundamentalsFacts.Qlt_bool_zero_l;
        [apply Qle_refl|exact B0]).
      rewrite andb_false_r. destruct (Qlt_bool 0 e); reflexivity.
    + simpl. destruct (Qlt_bool 0 e), (Qlt_bool 0 b); reflexivity.
Qed.

Lemma run_checks_le l : forall s, (run_checks l s <= s + length l)%nat.
Proof.
  induction l as [|[b|e] l IH]; intros s; simpl; [lia| |lia].
  specialize (IH (if b then S s else s)). destruct b; lia.
Qed.

(** [get_piotroski_score] returns one of 0, 1, 3, 5, 7, 9 on every
    snapshot, whatever its values are (a raising check stops the tally). *)
Theorem get_piotroski_score_values (info : pydict) :
  In (get_piotroski_score info) [0; 1; 3; 5; 7; 9]%Z.
Proof.
  unfold get_piotroski_score, py_int_nonneg.
  assert (Hle : (run_checks (piotroski_checks info) 0 <= 5)%nat)
    by exact (run_checks_le (piotroski_checks info) 0).
  destruct (run_checks (piotroski_checks info) 0) as [|[|[|[|[|[|n]]]]]]; try lia;
    vm_compute; tauto.
Qed.

Lemma score_fundamental_unit_witness :
  score_fundamental {[ "trailingPE" := PNum 10; "returnOnEquity" := PNum (1 # 5) ]} = Ok (2 # 6) /\
  0 <= 2 # 6 <= 1.
Proof.
  assert (H : score_fundamental {[ "trailingPE" := PNum 10; "returnOnEquity" := PNum (1 # 5) ]}
              = Ok (2 # 6)) by (vm_compute; reflexivity).
  split; [exact H|]. exact (score_fundamental_unit _ _ H).
Defined.

Lemma calculate_graham_number_numbers_witness :
  calculate_graham_number {[ "trailingEps" := PNum 2; "bookValue" := PNum 5 ]} =
    if Qlt_bool 0 2 && Qlt_bool 0 5 then Ok (GSqrt ((45 # 2) * 2 * 5)) else Ok GZero.
Proof. apply calculate_graham_number_numbers; vm_compute; reflexivity. Defined.

End FundamentalsProps.

Module StrategyProps.
Import Technicals.
Local Open Scope Q_scope.



End StrategyProps.

Module PortfolioProps.
Import PortfolioManager.




End PortfolioProps.

Module ForecastProps.
Import Forecast.
Local Open Scope R_scope.
















End ForecastProps.

Module PipelineProps.
Import Pipeline.

Lemma csv_stocks_tickers rows :
  Forall (fun s => exists sym, sTicker s = (sym ++ ".NS")%string) (csv_stocks rows).
Proof.
  induction rows as [|[[sym|] name] rows IH]; simpl; [constructor| |exact IH].
  destruct (String.eqb sym ""); simpl; [exact IH|]. constructor; [eauto|exact IH].
Qed.

Lemma map_tickers (l : list string) :
  Forall (fun s => exists sym, sTicker s = (sym ++ ".NS")%string)
    (map (fun s => {| sTicker := (s ++ ".NS")%string; sName := s |}) l).
Proof. induction l as [|s l IH]; simpl; constructor; eauto. Qed.

(** [get_nse_equity_list] returns either the 15-row fallback list or more
    than 500 entities, and every ticker carries the [.NS] suffix. *)
Theorem get_nse_equity_list_universe nse_eq_symbols equity_csv :
  (snd (get_nse_equity_list nse_eq_symbols equity_csv) = fallback_stock_list \/
   (500 < length (snd (get_nse_equity_list nse_eq_symbols equity_csv)))%nat) /\
  Forall (fun s => exists sym, sTicker s = (sym ++ ".NS")%string)
    (snd (get_nse_equity_list nse_eq_symbols equity_csv)).
Proof.
  unfold get_nse_equity_list.
  assert (Hcsv : forall log,
    (snd (log ++ [FetchEquityCsv],
          match match equity_csv with
                | Ok (Some rows) =>
                    if Nat.ltb 500 (length (csv_stocks rows)) then Some (csv_stocks rows) else None
                | _ => None
                end with Some stocks => stocks | None => fallback_stock_list end)
       = fallback_stock_list \/
     (500 < length (snd (log ++ [FetchEquityCsv],
          match match equity_csv with
                | Ok (Some rows) =>
                    if Nat.ltb 500 (length (csv_stocks rows)) then Some (csv_stocks rows) else None
                | _ => None
                end with Some stocks => stocks | None => fallback_stock_list end)))%nat) /\
    Forall (fun s => exists sym, sTicker s = (sym ++ ".NS")%string)
      (snd (log ++ [FetchEquityCsv],
          match match equity_csv with
                | Ok (Some rows) =>
                    if Nat.ltb 500 (length (csv_stocks rows)) then Some (csv_stocks rows) else None
                | _ => None
                end with Some stocks => stocks | None => fallback_stock_list end))).
  { intros log. cbn [snd].
    destruct equity_csv as [[rows|]|e];
      [destruct (Nat.ltb 500 (length (csv_stocks rows))) eqn:E|..];
      (split; [|first [apply csv_stocks_tickers | apply map_tickers]]);
      try (left; reflexivity).
    right. apply Nat.ltb_lt, E. }
  destruct nse_eq_symbols as [[symbols|e]|]; [|apply Hcsv|apply Hcsv].
  destruct (Nat.ltb 500 (length symbols)) eqn:E; [|apply Hcsv].
  cbn [snd]. split; [right; rewrite length_map; apply Nat.ltb_lt, E|apply map_tickers].
Qed.

(** The entities a run scans are a prefix of the shuffled universe, at most
    [limit] of them for a positive [limit]. *)
Theorem run_stocks_prefix nse_eq_symbols equity_csv shuffle limit :
  (exists rest, shuffle (snd (get_nse_equity_list nse_eq_symbols equity_csv)) =
     run_stocks nse_eq_symbols equity_csv shuffle limit ++ rest) /\
  (forall n, limit = Some n -> (0 < n)%Z ->
     (length (run_stocks nse_eq_symbols equity_csv shuffle limit) <= Z.to_nat n)%nat).
Proof.
  unfold run_stocks, select_stocks.
  set (l := shuffle (snd (get_nse_equity_list nse_eq_symbols equity_csv))).
  split.
  - destruct limit as [n|]; [|exists []; rewrite app_nil_r; reflexivity].
    destruct (n =? 0)%Z; [exists []; rewrite app_nil_r; reflexivity|].
    unfold py_slice_to. destruct (0 <=? n)%Z; eexists; symmetry; apply firstn_skipn.
  - intros n -> Hn. destruct (Z.eqb_spec n 0) as [->|_]; [lia|].
    unfold py_slice_to. destruct (Z.leb_spec 0 n); [|lia].
    rewrite length_firstn. lia.
Qed.

End PipelineProps.
